(** * ECG_recog_model: the credential and history store of [app.py]

    A shallow embedding of the user database of [app.py] (lines 21-81), of
    the sign-up form handler (lines 172-192) and of the upload handler
    (lines 159-169 and 225-264), with the properties of the store stated and
    proved over it.

    Conventions of the embedding.
    - A Python [str] is a Rocq [string] holding the UTF-8 encoding of the
      text, so [s.encode("utf-8")] is the identity and [+] on [str] is
      [+:+].  Text that has no UTF-8 encoding (a lone surrogate) is outside
      the type.
    - A Python [dict] keyed by [str] is a [gmap string _]; the user record
      and the history entry, which the program always writes with the same
      keys, are records.
    - The file system, the entropy source behind [secrets] and the clock
      behind [datetime.now()] are fields of an explicit [World], threaded
      through every function.  The program can always read and write its
      own [users.json] and make its upload folder: a disk that fails there
      is outside the model.  Whether the folder of a user can be made and
      the file of an upload opened depends on the username and on the name
      of the uploaded file: there the disk answers, and [os.makedirs] and
      [open] raise when it objects.
    - Streamlit is outside the embedding.  A form handler gets the state
      of its widgets as arguments and gives back the message it shows; the
      calls that only draw the page ([st.markdown], [st.image],
      [st.spinner]) and [time.sleep] are left out, and a handler is
      followed as far as these calls return.
    - [json.load] after [json.dump] is the identity on the documents of the
      model, so [users.json] holds the document itself. *)

From Stdlib Require Import ZArith Ascii SpecFloat.
From stdpp Require Import gmap strings list.

Local Open Scope Z_scope.

(** ** Bytes and hexadecimal text *)

Definition byte_of_ascii (c : ascii) : Z := Z.of_N (Ascii.N_of_ascii c).
Definition ascii_of_byte (b : Z) : ascii := Ascii.ascii_of_N (Z.to_N (b mod 256)).

Fixpoint bytes_of_string (s : string) : list Z :=
  match s with
  | EmptyString => []
  | String c r => byte_of_ascii c :: bytes_of_string r
  end.

(** One lowercase hexadecimal digit, as [format(d, "x")] prints it. *)
Definition hex_digit (d : Z) : ascii :=
  if d <? 10 then ascii_of_byte (48 + d) else ascii_of_byte (87 + d).

(** [nd] hexadecimal digits of [x], most significant first, before [k]. *)
Fixpoint hex_digits (nd : nat) (x : Z) (k : string) : string :=
  match nd with
  | O => k
  | S n => hex_digits n (Z.shiftr x 4) (String (hex_digit (Z.land x 15)) k)
  end.

(** [bytes.hex()]: two lowercase digits per byte. *)
Fixpoint hex_of_bytes (bs : list Byte.byte) : string :=
  match bs with
  | [] => ""
  | b :: r => hex_digits 2 (Z.of_N (Byte.to_N b)) (hex_of_bytes r)
  end.

(** ** hashlib.sha256 (FIPS 180-4), on 32-bit words held in [Z] *)

Module Hashlib.

Definition w32 (x : Z) : Z := Z.land x 0xFFFFFFFF.
Definition add32 (x y : Z) : Z := w32 (x + y).
Definition rotr (n x : Z) : Z :=
  Z.lor (Z.shiftr x n) (w32 (Z.shiftl x (32 - n))).

Definition Ch (x y z : Z) : Z :=
  Z.lxor (Z.land x y) (Z.land (Z.lxor x 0xFFFFFFFF) z).
Definition Maj (x y z : Z) : Z :=
  Z.lxor (Z.lxor (Z.land x y) (Z.land x z)) (Z.land y z).
Definition bsig0 (x : Z) : Z := Z.lxor (Z.lxor (rotr 2 x) (rotr 13 x)) (rotr 22 x).
Definition bsig1 (x : Z) : Z := Z.lxor (Z.lxor (rotr 6 x) (rotr 11 x)) (rotr 25 x).
Definition ssig0 (x : Z) : Z := Z.lxor (Z.lxor (rotr 7 x) (rotr 18 x)) (Z.shiftr x 3).
Definition ssig1 (x : Z) : Z := Z.lxor (Z.lxor (rotr 17 x) (rotr 19 x)) (Z.shiftr x 10).

(** The round constants are the first 32 bits of the fractional parts of
    the cube roots of the first 64 primes, and the initial hash value those
    of the square roots of the first 8 primes; they are computed here
    rather than tabulated. *)
Definition is_prime (n : Z) : bool :=
  forallb (fun d => negb (n mod d =? 0)) (seqZ 2 (n - 2)).
Definition primes : list Z :=
  Eval vm_compute in filter (fun n => Is_true (is_prime n)) (seqZ 2 310).

(** Integer cube root, one bit at a time from bit [nb - 1] down. *)
Fixpoint icbrt_bits (nb : nat) (n r : Z) : Z :=
  match nb with
  | O => r
  | S b =>
      let c := r + 2 ^ Z.of_nat b in
      icbrt_bits b n (if c * c * c <=? n then c else r)
  end.

Definition K : list Z :=
  Eval vm_compute in map (fun p => w32 (icbrt_bits 40 (p * 2 ^ 96) 0)) primes.
Definition H0 : list Z :=
  Eval vm_compute in map (fun p => w32 (Z.sqrt (p * 2 ^ 64))) (take 8 primes).

(** Padding: the byte 0x80, zero bytes up to 56 modulo 64, then the bit
    length of the message as a 64-bit big-endian integer. *)
Fixpoint be_bytes (nb : nat) (x : Z) (k : list Z) : list Z :=
  match nb with
  | O => k
  | S n => be_bytes n (Z.shiftr x 8) (Z.land x 255 :: k)
  end.

Definition pad (msg : list Z) : list Z :=
  let l := Z.of_nat (length msg) in
  msg ++ [128] ++ replicate (Z.to_nat ((55 - l) mod 64)) 0 ++ be_bytes 8 (8 * l) [].

Definition be32 (b0 b1 b2 b3 : Z) : Z :=
  Z.lor (Z.shiftl b0 24) (Z.lor (Z.shiftl b1 16) (Z.lor (Z.shiftl b2 8) b3)).

Fixpoint words_of_bytes (bs : list Z) : list Z :=
  match bs with
  | b0 :: b1 :: b2 :: b3 :: r => be32 b0 b1 b2 b3 :: words_of_bytes r
  | _ => []
  end.

(** The message schedule, newest word first: [ws] holds W(t-1) ... W(0). *)
Definition next_word (ws : list Z) : Z :=
  add32 (add32 (ssig1 (nth 1 ws 0)) (nth 6 ws 0))
        (add32 (ssig0 (nth 14 ws 0)) (nth 15 ws 0)).

Fixpoint extend (n : nat) (ws : list Z) : list Z :=
  match n with
  | O => ws
  | S m => extend m (next_word ws :: ws)
  end.

Definition schedule (block : list Z) : list Z :=
  reverse (extend 48 (reverse block)).

Record regs := Regs { ra : Z; rb : Z; rc : Z; rd : Z; re : Z; rf : Z; rg : Z; rh : Z }.

Definition round (s : regs) (kw : Z * Z) : regs :=
  let t1 := add32 (add32 (add32 (rh s) (bsig1 (re s))) (Ch (re s) (rf s) (rg s)))
                  (add32 (fst kw) (snd kw)) in
  let t2 := add32 (bsig0 (ra s)) (Maj (ra s) (rb s) (rc s)) in
  Regs (add32 t1 t2) (ra s) (rb s) (rc s) (add32 (rd s) t1) (re s) (rf s) (rg s).

Definition compress (h : regs) (block : list Z) : regs :=
  let s := fold_left round (zip K (schedule block)) h in
  Regs (add32 (ra h) (ra s)) (add32 (rb h) (rb s)) (add32 (rc h) (rc s))
       (add32 (rd h) (rd s)) (add32 (re h) (re s)) (add32 (rf h) (rf s))
       (add32 (rg h) (rg s)) (add32 (rh h) (rh s)).

(** The blocks of 16 words are consumed left to right; [n] bounds their number. *)
Fixpoint blocks (n : nat) (h : regs) (ws : list Z) : regs :=
  match n, ws with
  | S m, _ :: _ => blocks m (compress h (take 16 ws)) (drop 16 ws)
  | _, _ => h
  end.

Definition init : regs :=
  Regs (nth 0 H0 0) (nth 1 H0 0) (nth 2 H0 0) (nth 3 H0 0)
       (nth 4 H0 0) (nth 5 H0 0) (nth 6 H0 0) (nth 7 H0 0).

Definition sha256 (msg : list Z) : regs :=
  let ws := words_of_bytes (pad msg) in
  blocks (length ws) init ws.

(** [hashlib.sha256(data).hexdigest()] *)
Definition sha256_hexdigest (data : string) : string :=
  let h := sha256 (bytes_of_string data) in
  fold_right (hex_digits 8) ""
    [ra h; rb h; rc h; rd h; re h; rf h; rg h; rh h].

End Hashlib.

(** ** The Python built-ins the program calls *)

Module Py.

(** [str.isspace] holds of the code points U+0009-000D, U+001C-0020,
    U+0085, U+00A0, U+1680, U+2000-200A, U+2028, U+2029, U+202F, U+205F
    and U+3000; below are their UTF-8 encodings of one, two and three
    bytes. *)
Definition space1 (b : Z) : bool :=
  (9 <=? b) && (b <=? 13) || (28 <=? b) && (b <=? 32).
Definition space2 (b0 b1 : Z) : bool :=
  (b0 =? 0xC2) && ((b1 =? 0x85) || (b1 =? 0xA0)).
Definition space3 (b0 b1 b2 : Z) : bool :=
  (b0 =? 0xE1) && (b1 =? 0x9A) && (b2 =? 0x80)
  || (b0 =? 0xE2) && (b1 =? 0x80)
     && ((0x80 <=? b2) && (b2 <=? 0x8A) || (b2 =? 0xA8) || (b2 =? 0xA9) || (b2 =? 0xAF))
  || (b0 =? 0xE2) && (b1 =? 0x81) && (b2 =? 0x9F)
  || (b0 =? 0xE3) && (b1 =? 0x80) && (b2 =? 0x80).

(** [str.lstrip()] when [fwd] is [true]; when it is [false] the string is
    read from its last byte, so the bytes of a character arrive last
    first. *)
Fixpoint strip_front (fwd : bool) (s : string) : string :=
  match s with
  | EmptyString => EmptyString
  | String c0 r0 =>
      let b0 := byte_of_ascii c0 in
      if space1 b0 then strip_front fwd r0 else
      match r0 with
      | EmptyString => s
      | String c1 r1 =>
          let b1 := byte_of_ascii c1 in
          if (if fwd then space2 b0 b1 else space2 b1 b0) then strip_front fwd r1 else
          match r1 with
          | EmptyString => s
          | String c2 r2 =>
              let b2 := byte_of_ascii c2 in
              if (if fwd then space3 b0 b1 b2 else space3 b2 b1 b0)
              then strip_front fwd r2 else s
          end
      end
  end.

Definition lstrip (s : string) : string := strip_front true s.
Definition rstrip (s : string) : string := String.rev (strip_front false (String.rev s)).
(** [s.strip()] *)
Definition strip (s : string) : string := rstrip (lstrip s).

(** [" " in s] *)
Fixpoint has_space (s : string) : bool :=
  match s with
  | EmptyString => false
  | String c r => (byte_of_ascii c =? 32) || has_space r
  end.

(** Whether some character of [s] satisfies [str.isspace]. *)
Fixpoint has_whitespace (s : string) : bool :=
  match s with
  | EmptyString => false
  | String c0 r0 =>
      let b0 := byte_of_ascii c0 in
      space1 b0
      || match r0 with
         | String c1 (String c2 _) =>
             space2 b0 (byte_of_ascii c1)
             || space3 b0 (byte_of_ascii c1) (byte_of_ascii c2)
         | String c1 EmptyString => space2 b0 (byte_of_ascii c1)
         | EmptyString => false
         end
      || has_whitespace r0
  end.

(** [nd] decimal digits of [x], zero padded, before [k]. *)
Fixpoint dec_digits (nd : nat) (x : Z) (k : string) : string :=
  match nd with
  | O => k
  | S n => dec_digits n (x / 10) (String (ascii_of_byte (48 + x mod 10)) k)
  end.

(** A naive [datetime]; the fields are within the ranges of the Python
    type (year 1 to 9999), and a running clock gives a year of four
    digits. *)
Record datetime := {
  year : Z; month : Z; day : Z;
  hour : Z; minute : Z; second : Z; microsecond : Z
}.

(** [dt.isoformat()] *)
Definition isoformat (dt : datetime) : string :=
  dec_digits 4 (year dt) ("-" +:+ dec_digits 2 (month dt) ("-" +:+ dec_digits 2 (day dt)
    ("T" +:+ dec_digits 2 (hour dt) (":" +:+ dec_digits 2 (minute dt) (":" +:+
      dec_digits 2 (second dt)
        (if microsecond dt =? 0 then "" else "." +:+ dec_digits 6 (microsecond dt) "")))))).

(** [dt.strftime("%Y%m%d_%H%M%S")] *)
Definition strftime_compact (dt : datetime) : string :=
  dec_digits 4 (year dt) (dec_digits 2 (month dt) (dec_digits 2 (day dt)
    ("_" +:+ dec_digits 2 (hour dt) (dec_digits 2 (minute dt) (dec_digits 2 (second dt) ""))))).

Definition starts_with_slash (s : string) : bool :=
  match s with String c _ => byte_of_ascii c =? 47 | EmptyString => false end.
Definition ends_with_slash (s : string) : bool := starts_with_slash (String.rev s).

(** [os.path.join(a, b)] of posixpath. *)
Definition path_join (a b : string) : string :=
  if starts_with_slash b then b
  else if bool_decide (a = "") || ends_with_slash a then a +:+ b
  else a +:+ "/" +:+ b.

(** [os.path.splitext(p)[1]]: the extension starts at the last dot of the
    last path component, unless only dots precede it there.  [go] scans
    [p] from the left; [ext] is the candidate extension, [lead] tells that
    the current component has had dots only. *)
Fixpoint splitext_go (p : string) (lead : bool) (ext : option string) : string :=
  match p with
  | EmptyString => default "" ext
  | String c r =>
      let b := byte_of_ascii c in
      if b =? 47 then splitext_go r true None
      else if b =? 46 then splitext_go r lead (if lead then None else Some p)
      else splitext_go r false ext
  end.
Definition splitext_ext (p : string) : string := splitext_go p true None.

End Py.

(** ** Python floats: IEEE 754 binary64, as the standard library specifies it *)

Module PyFloat.

Definition prec : Z := 53.
Definition emax : Z := 1024.

(** The literal [0.0] *)
Definition zero : spec_float := S754_zero false.

(** [num / den] rounded to the nearest integer, ties to even. *)
Definition round_half_even (num den : Z) : Z :=
  let q := num / den in
  match 2 * (num mod den) ?= den with
  | Lt => q
  | Gt => q + 1
  | Eq => if Z.even q then q else q + 1
  end.

(** [round(x, 2)]: the decimal expansion of [x] is rounded to two places,
    ties to even, and the decimal is converted back; zeros, infinities and
    NaN are returned as they are, and so is a float that is an integer. *)
Definition round2 (x : spec_float) : spec_float :=
  match x with
  | S754_finite s m e =>
      if 0 <=? e then x else
      match round_half_even (Z.pos m * 100) (2 ^ (- e)) with
      | Z.pos n => SFdiv prec emax (S754_finite s n 0) (S754_finite false 100 0)
      | _ => S754_zero s
      end
  | _ => x
  end.

End PyFloat.

(** ** The data model: [users.json] *)

(** One entry of a user's history, as [user_upload_ui] builds it. *)
Record HistoryEntry := {
  filename : string;
  filepath : string;
  timestamp : string;
  label : string;
  confidence : spec_float
}.

(** The value stored under a username by [create_user]. *)
Record UserRecord := {
  full_name : string;
  salt : string;
  pwd_hash : string;
  created_at : string;
  history : list HistoryEntry
}.

(** The document [{"users": {...}}]. *)
Record Document := { users : gmap string UserRecord }.

Definition with_history (h : list HistoryEntry) (u : UserRecord) : UserRecord :=
  {| full_name := full_name u; salt := salt u; pwd_hash := pwd_hash u;
     created_at := created_at u; history := h |}.

(** ** The world outside the program *)

(** The calls the program makes on paths that depend on its input. *)
Inductive FsCall : Type :=
  | Makedirs (path : string)     (* os.makedirs(path, exist_ok=True) *)
  | OpenWrite (path : string).   (* open(path, "wb") *)

Record World := {
  users_file : option Document;       (* users.json; None when it does not exist *)
  made_dirs : gset string;            (* the paths os.makedirs has returned for *)
  files : gmap string (list Byte.byte); (* the files written below the upload folder *)
  entropy : nat -> Byte.byte;         (* the bytes the system's random source gives, in order *)
  drawn : nat;                        (* how many of them were drawn *)
  clock : nat -> Py.datetime;         (* the readings of datetime.now(), in order *)
  ticks : nat;                        (* how many of them were taken *)
  fs_error : FsCall -> option string  (* what the disk answers such a call with: the
                                         exception raised (a file in the way, a name too
                                         long, no permission), None when the disk has no
                                         objection *)
}.

Definition State (A : Type) : Type := World -> A * World.
Definition ret {A : Type} (a : A) : State A := fun w => (a, w).
Definition bind {A B : Type} (m : State A) (k : A -> State B) : State B :=
  fun w => let (a, w') := m w in k a w'.

Notation "'let*' x ':=' m 'in' k" := (bind m (fun x => k))
  (at level 10, x name, m at level 100, k at level 200).

(** What a call either returns or raises. *)
Inductive Outcome (A : Type) : Type :=
  | Returned (a : A)
  | Raised (exn : string).
Arguments Returned {A} a.
Arguments Raised {A} exn.

Definition BASE_UPLOAD_DIR : string := "upload".

(** Whether a path has the character U+0000 in it. *)
Fixpoint has_nul (s : string) : bool :=
  match s with
  | EmptyString => false
  | String c r => (byte_of_ascii c =? 0) || has_nul r
  end.

(** The exception [os.makedirs(path, exist_ok=True)] raises in world [w],
    [None] when it returns.  The upload folder itself can always be made.
    For every other path the disk answers; a path with a NUL character in
    it is never made, whatever the disk: [os.mkdir] refuses it with
    [ValueError] when nothing was raised on the way to it. *)
Definition makedirs_error (w : World) (path : string) : option string :=
  if bool_decide (path = BASE_UPLOAD_DIR) then None
  else
    match fs_error w (Makedirs path) with
    | Some exn => Some exn
    | None => if has_nul path then Some "ValueError" else None
    end.

(** The exception [open(path, "wb")] raises in world [w], [None] when it
    opens the file: Python refuses a path with a NUL character before it
    asks the disk. *)
Definition open_error (w : World) (path : string) : option string :=
  if has_nul path then Some "ValueError" else fs_error w (OpenWrite path).

(** [os.makedirs(path, exist_ok=True)] *)
Definition makedirs (path : string) : State (Outcome unit) := fun w =>
  match makedirs_error w path with
  | Some exn => (Raised exn, w)
  | None =>
      (Returned tt,
       {| users_file := users_file w; made_dirs := {[ path ]} ∪ made_dirs w;
          files := files w; entropy := entropy w; drawn := drawn w;
          clock := clock w; ticks := ticks w; fs_error := fs_error w |})
  end.

(** [with open(USERS_FILE, "w") as f: json.dump(data, f, ...)] *)
Definition write_users_file (data : Document) : State unit := fun w =>
  (tt, {| users_file := Some data; made_dirs := made_dirs w;
          files := files w; entropy := entropy w; drawn := drawn w;
          clock := clock w; ticks := ticks w; fs_error := fs_error w |}).

(** [with open(path, "wb") as f: f.write(buffer)] *)
Definition write_file (path : string) (buffer : list Byte.byte) : State (Outcome unit) :=
  fun w =>
    match open_error w path with
    | Some exn => (Raised exn, w)
    | None =>
        (Returned tt,
         {| users_file := users_file w; made_dirs := made_dirs w;
            files := <[ path := buffer ]> (files w); entropy := entropy w;
            drawn := drawn w; clock := clock w; ticks := ticks w;
            fs_error := fs_error w |})
    end.

(** [secrets.token_bytes(nbytes)] *)
Definition token_bytes (nbytes : nat) : State (list Byte.byte) := fun w =>
  (map (fun i => entropy w (drawn w + i)%nat) (seq 0 nbytes),
   {| users_file := users_file w; made_dirs := made_dirs w; files := files w;
      entropy := entropy w; drawn := (drawn w + nbytes)%nat;
      clock := clock w; ticks := ticks w; fs_error := fs_error w |}).

(** [secrets.token_hex(nbytes)] *)
Definition token_hex (nbytes : nat) : State string :=
  let* bs := token_bytes nbytes in ret (hex_of_bytes bs).

(** [datetime.now()] *)
Definition datetime_now : State Py.datetime := fun w =>
  (clock w (ticks w),
   {| users_file := users_file w; made_dirs := made_dirs w; files := files w;
      entropy := entropy w; drawn := drawn w;
      clock := clock w; ticks := S (ticks w); fs_error := fs_error w |}).

(** ** The users database (app.py, lines 21-81) *)

(** [os.makedirs] returns on the upload folder, so there is no exception
    for [ensure_files] to pass on. *)
Definition ensure_files : State unit :=
  let* _ := makedirs BASE_UPLOAD_DIR in
  fun w =>
    match users_file w with
    | None => write_users_file {| users := ∅ |} w
    | Some _ => (tt, w)
    end.

(** After [ensure_files] the file exists, so the [open] of [load_users]
    finds it; the second branch is never taken. *)
Definition load_users : State Document :=
  let* _ := ensure_files in
  fun w =>
    match users_file w with
    | Some data => (data, w)
    | None => ({| users := ∅ |}, w)
    end.

Definition save_users (data : Document) : State unit := write_users_file data.

Definition hash_password (password salt : string) : string :=
  Hashlib.sha256_hexdigest (salt +:+ password).

Definition create_user (username password full_name : string)
  : State (Outcome (bool * string)) :=
  let* data := load_users in
  match users data !! username with
  | Some _ => ret (Returned (false, "Username already exists."))
  | None =>
      let* salt := token_hex 8 in
      let pwd_hash := hash_password password salt in
      let* now := datetime_now in
      let record :=
        {| full_name := full_name; salt := salt; pwd_hash := pwd_hash;
           created_at := Py.isoformat now; history := [] |} in
      let* _ := save_users {| users := <[ username := record ]> (users data) |} in
      let* made := makedirs (Py.path_join BASE_UPLOAD_DIR username) in
      match made with
      | Raised exn => ret (Raised exn)
      | Returned _ => ret (Returned (true, "User created."))
      end
  end.

(** [if not user] tests the record for truth: [get] gave [None], or a
    dictionary without keys; a record of the model has its five keys. *)
Definition verify_user (username password : string) : State (bool * string) :=
  let* data := load_users in
  match users data !! username with
  | None => ret (false, "Username not found.")
  | Some user =>
      if bool_decide (hash_password password (salt user) = pwd_hash user)
      then ret (true, "Login successful.")
      else ret (false, "Incorrect password.")
  end.

Definition add_history_for_user (username : string) (item : HistoryEntry) : State unit :=
  let* data := load_users in
  match users data !! username with
  | Some user =>
      let user' := with_history (take 50 (item :: history user)) user in
      save_users {| users := <[ username := user' ]> (users data) |}
  | None => ret tt
  end.

(** What [load_users] reads in a world: the users of the database. *)
Definition database (w : World) : gmap string UserRecord := users (fst (load_users w)).

(** ** The classifier (app.py, lines 140-169) *)

(** A model that [load_model] returned.  TensorFlow and NumPy are outside
    the embedding: [predict_top] stands for lines 162-166 and the two
    reductions of lines 167-168, from the bytes of the image file to
    [np.argmax(result)] and [float(np.max(result) * 100)]; it is [None]
    when one of these calls raises. *)
Record KerasModel := { predict_top : list Byte.byte -> option (nat * spec_float) }.

Definition ECG_NAMES : list string :=
  [ "Myocardial Infarction ECG"; "History of MI ECG";
    "Abnormal Heartbeat ECG"; "Normal ECG" ].

Module UploadedFile.
(** The object [st.file_uploader] returns. *)
Record t := { name : string; getbuffer : list Byte.byte }.
End UploadedFile.

(** The messages a form handler shows. *)
Inductive Notice : Type :=
  | st_warning (msg : string)
  | st_success (msg : string)
  | st_error (msg : string).

Section Handlers.

(** The global [model]: [None] when [load_ecg_model] caught an exception. *)
Variable model : option KerasModel.

Definition classify_images (image_path : string) (w : World)
  : Outcome (string * spec_float) :=
  match model with
  | None => Returned ("ModelNotLoaded", PyFloat.zero)
  | Some m =>
      match files w !! image_path with
      | None => Raised "FileNotFoundError"
      | Some image =>
          match predict_top m image with
          | None => Raised "Exception"
          | Some (top, confidence) =>
              match ECG_NAMES !! top with
              | Some label => Returned (label, confidence)
              | None => Raised "IndexError"
              end
          end
      end
  end.

(** The body of [user_upload_ui] (lines 229-255); the result is the
    [history_item] the call recorded, [None] when no file was uploaded.
    An exception of [os.makedirs], of [open] or of the classifier is not
    caught and ends the call. *)
Definition user_upload_ui (username : string) (uploaded_file : option UploadedFile.t)
  : State (Outcome (option HistoryEntry)) :=
  match uploaded_file with
  | None => ret (Returned None)
  | Some f =>
      let user_dir := Py.path_join BASE_UPLOAD_DIR username in
      let* made := makedirs user_dir in
      match made with
      | Raised exn => ret (Raised exn)
      | Returned _ =>
          let* now := datetime_now in
          let timestamp := Py.strftime_compact now in
          let ext :=
            let e := Py.splitext_ext (UploadedFile.name f) in
            if bool_decide (e = "") then ".png" else e in
          let safe_name := "ECG_" +:+ timestamp +:+ ext in
          let file_path := Py.path_join user_dir safe_name in
          let* written := write_file file_path (UploadedFile.getbuffer f) in
          match written with
          | Raised exn => ret (Raised exn)
          | Returned _ =>
              let* result := (fun w => (classify_images file_path w, w)) in
              match result with
              | Raised exn => ret (Raised exn)
              | Returned (label, confidence) =>
                  let* now' := datetime_now in
                  let history_item :=
                    {| filename := safe_name; filepath := file_path;
                       timestamp := Py.isoformat now'; label := label;
                       confidence := PyFloat.round2 confidence |} in
                  let* _ := add_history_for_user username history_item in
                  ret (Returned (Some history_item))
              end
          end
      end
  end.

End Handlers.

(** ** The sign-up form (app.py, lines 172-192) *)

(** [submitted] is the state of the button, the strings are the four text
    inputs; the result is the message shown, or the exception that
    [create_user] raised. *)
Definition show_signup (submitted : bool)
    (new_username full_name new_password confirm_password : string)
  : State (Outcome (option Notice)) :=
  if submitted then
    if bool_decide (new_username = "") || bool_decide (new_password = "") then
      ret (Returned (Some (st_warning "Please enter a username and password.")))
    else if Py.has_space new_username then
      ret (Returned (Some (st_warning "Username cannot contain spaces.")))
    else if negb (bool_decide (new_password = confirm_password)) then
      ret (Returned (Some (st_warning "Passwords do not match.")))
    else
      let* r := create_user (Py.strip new_username) new_password (Py.strip full_name) in
      match r with
      | Raised exn => ret (Raised exn)
      | Returned (ok, msg) =>
          if ok then ret (Returned (Some (st_success "Account created. Please log in below.")))
          else ret (Returned (Some (st_error msg)))
      end
  else ret (Returned None).

(** ** Sequences of calls *)

(** The calls that reach the store. *)
Inductive Call : Type :=
  | CreateUser (username password full_name : string)
  | VerifyUser (username password : string)
  | AddHistory (username : string) (item : HistoryEntry)
  | Signup (submitted : bool) (new_username full_name new_password confirm_password : string)
  | Upload (model : option KerasModel) (username : string) (uploaded_file : option UploadedFile.t).

(** The world a call leaves, whether it returns or raises: an exception
    ends the run of the script, and the next call starts from the world the
    failed one left. *)
Definition call (c : Call) (w : World) : World :=
  match c with
  | CreateUser u p n => snd (create_user u p n w)
  | VerifyUser u p => snd (verify_user u p w)
  | AddHistory u e => snd (add_history_for_user u e w)
  | Signup s u n p c => snd (show_signup s u n p c w)
  | Upload m u f => snd (user_upload_ui m u f w)
  end.

Definition calls (cs : list Call) (w : World) : World := fold_left (fun w c => call c w) cs w.

(** ** A world to run the program in *)

(** The names between the "/" of a path; [cur] is the name being read,
    last character first. *)
Fixpoint split_slash (s cur : string) : list string :=
  match s with
  | EmptyString => [String.rev cur]
  | String c r =>
      if byte_of_ascii c =? 47 then String.rev cur :: split_slash r ""
      else split_slash r (String c cur)
  end.

(** Where [os.makedirs] stands on its way through a path: in [folder]
    (the names below the working directory, innermost first; [None] when
    the path has left the working directory), or on the file [users.json].
    [fresh] tells that some folder on the way did not exist before the
    call. *)
Inductive walk_state : Type :=
  | At (folder : option (list string)) (fresh : bool)
  | OnUsersFile.

(** [os.makedirs] makes the folders of a path name by name from the left
    and raises at the first one it cannot make.  [total] is the length of
    the whole path and [start] the number of bytes before [names]; the last
    name is made under the whole path, trailing "/" included. *)
Fixpoint walk (total start : Z) (st : walk_state) (names : list string) : option string :=
  match names with
  | [] => None
  | name :: rest =>
      let next := walk total (start + Z.of_nat (String.length name) + 1) in
      if bool_decide (name = "") then next st rest
      else
        let is_last := forallb (fun n => bool_decide (n = "")) rest in
        let len := if is_last then total else start + Z.of_nat (String.length name) in
        if has_nul name then Some "ValueError"
        else
          match st with
          | OnUsersFile =>
              if 4095 <? len then Some "OSError" else Some "NotADirectoryError"
          | At folder fresh =>
              if bool_decide (name = ".") && fresh then next st rest
              else if 4095 <? len then Some "OSError"
              else if bool_decide (name = ".") then next st rest
              else if bool_decide (name = "..") then
                match folder with
                | Some (_ :: up) => next (At (Some up) fresh) rest
                | _ => next (At None fresh) rest
                end
              else if bool_decide (folder = Some []) && bool_decide (name = "users.json") then
                if is_last then Some "FileExistsError" else next OnUsersFile rest
              else if bool_decide (folder = Some []) && bool_decide (name = BASE_UPLOAD_DIR) then
                next (At (Some [name]) fresh) rest
              else if 255 <? Z.of_nat (String.length name) then Some "OSError"
              else next (At (cons name <$> folder) true) rest
          end
  end.

(** What [os.makedirs(path, exist_ok=True)] raises on Linux in a working
    directory that holds the file [users.json] and the folder [upload] and
    nothing else, when the program may write everywhere and nothing stands
    in its way outside the working directory: a path of more than 4095
    bytes and a name of more than 255 bytes are too long, and [users.json]
    is a file, so no folder can be made at it or below it.  [os.makedirs]
    calls itself once per name, so these are its answers for a path of fewer
    names than Python's recursion limit allows. *)
Definition plain_makedirs (path : string) : option string :=
  walk (Z.of_nat (String.length path)) 0
    (At (if Py.starts_with_slash path then None else Some []) false)
    (split_slash path "").

(** What [open(path, "wb")] raises there for a file in a folder that
    exists: the path or the name of the file is too long, or the name is
    that of a folder. *)
Definition plain_open (path : string) : option string :=
  let name := List.last (split_slash path "") "" in
  if (4095 <? Z.of_nat (String.length path)) || (255 <? Z.of_nat (String.length name))
  then Some "OSError"
  else if bool_decide (name = "") || bool_decide (name = ".") || bool_decide (name = "..")
  then Some "IsADirectoryError"
  else None.

Definition plain_disk (c : FsCall) : option string :=
  match c with
  | Makedirs path => plain_makedirs path
  | OpenWrite path => plain_open path
  end.

(** No [users.json], no folder, a random source that counts up from 0, a
    clock that advances one second per reading from 2025-01-01 00:00:00,
    and a plain disk. *)
Definition fresh_world : World :=
  {| users_file := None; made_dirs := ∅; files := ∅;
     entropy := fun i => default Byte.x00 (Byte.of_N (N.of_nat i mod 256));
     drawn := 0;
     clock := fun i => {| Py.year := 2025; Py.month := 1; Py.day := 1;
                          Py.hour := 0; Py.minute := 0;
                          Py.second := Z.of_nat i mod 60; Py.microsecond := 0 |};
     ticks := 0;
     fs_error := plain_disk |}.

(** The document [load_users] reads: the content of [users.json], or the
    empty database [ensure_files] writes when the file is missing. *)
Definition document (w : World) : Document := default {| users := ∅ |} (users_file w).

(** The world [run()] leaves behind after its first [ensure_files()]. *)
Definition initialised (w : World) : Prop :=
  is_Some (users_file w) ∧ BASE_UPLOAD_DIR ∈ made_dirs w.

(** The eight bytes the next [secrets.token_hex(8)] draws. *)
Definition next_token (w : World) : list Byte.byte :=
  map (fun i => entropy w (drawn w + i)%nat) (seq 0 8).

(** The record [create_user] stores in world [w]. *)
Definition new_record (w : World) (password full_name : string) : UserRecord :=
  {| full_name := full_name;
     salt := hex_of_bytes (next_token w);
     pwd_hash := hash_password password (hex_of_bytes (next_token w));
     created_at := Py.isoformat (clock w (ticks w));
     history := [] |}.

(** What [add_history_for_user] does to the users of the database. *)
Definition add_history_db (username : string) (item : HistoryEntry)
    (db : gmap string UserRecord) : gmap string UserRecord :=
  match db !! username with
  | Some user => <[ username := with_history (take 50 (item :: history user)) user ]> db
  | None => db
  end.

(** Two records that differ in their history at most. *)
Definition same_account (a b : UserRecord) : Prop :=
  full_name a = full_name b ∧ salt a = salt b
  ∧ pwd_hash a = pwd_hash b ∧ created_at a = created_at b.

(** The world after a first user was created: the world of the
    scenarios. *)
Definition alice_world : World := snd (create_user "alice" "p@ss1" "Alice" fresh_world).

(** The horizontal tab, U+0009. *)
Definition tab : string := String (ascii_of_byte 9) "".

(** The NUL character, U+0000. *)
Definition nul : string := String (ascii_of_byte 0) "".

(** The history entry of the scenarios that was recorded at time [t]. *)
Definition entry_at (t : nat) : HistoryEntry :=
  {| filename := "ECG.png"; filepath := "upload/alice/ECG.png";
     timestamp := "T" +:+ Py.dec_digits 2 (Z.of_nat t) "";
     label := "Normal ECG"; confidence := PyFloat.zero |}.

(** ** The login form (app.py, lines 134-138 and 194-212) *)

Module SessionState.
(** The keys of [st.session_state] the program uses; [remember] is set by
    the first successful login. *)
Record t := {
  authenticated : bool;
  username : option string;
  remember : option bool
}.
End SessionState.

(** The session state after lines 135-138 ran in a new session. *)
Definition initial_session : SessionState.t :=
  {| SessionState.authenticated := false;
     SessionState.username := None;
     SessionState.remember := None |}.

(** [submitted] is the state of the button, [username] and [password] the
    text inputs and [remember] the checkbox.  The result is the message
    shown, the session state, and whether [st.rerun()] ended the run. *)
Definition show_login (submitted : bool) (username password : string) (remember : bool)
    (session_state : SessionState.t)
  : State (option Notice * SessionState.t * bool) :=
  if submitted then
    let* r := verify_user (Py.strip username) password in
    if fst r then
      ret (Some (st_success ("Logged in as " +:+ username)),
           {| SessionState.authenticated := true;
              SessionState.username := Some (Py.strip username);
              SessionState.remember := Some remember |},
           true)
    else ret (Some (st_error (snd r)), session_state, false)
  else ret (None, session_state, false).

(** ** Notions the properties are stated with *)

Fixpoint string_forallb (p : ascii -> bool) (s : string) : bool :=
  match s with
  | EmptyString => true
  | String c r => p c && string_forallb p r
  end.

(** One of the characters 0-9 and a-f. *)
Definition is_lower_hex (c : ascii) : bool :=
  let b := byte_of_ascii c in
  (48 <=? b) && (b <=? 57) || (97 <=? b) && (b <=? 102).

(** The value of a hexadecimal digit and the byte two digits stand for:
    [bytes.fromhex] on one byte, the inverse of [bytes.hex()]. *)
Definition unhex_digit (c : ascii) : Z :=
  let b := byte_of_ascii c in if b <? 58 then b - 48 else b - 87.
Definition unhex_byte (c1 c0 : ascii) : option Byte.byte :=
  Byte.of_N (Z.to_N (16 * unhex_digit c1 + unhex_digit c0)).

(** One of the ASCII characters [str.isspace] holds of: U+0009 to U+000D
    and U+001C to U+0020. *)
Definition ascii_whitespace (c : ascii) : bool := Py.space1 (byte_of_ascii c).

(** Any character but the path separator. *)
Definition not_slash (c : ascii) : bool := negb (byte_of_ascii c =? 47).

(** The extension [user_upload_ui] gives the stored file: that of the
    uploaded name, [".png"] when it has none. *)
Definition upload_ext (name : string) : string :=
  if bool_decide (Py.splitext_ext name = "") then ".png" else Py.splitext_ext name.

(** The name and the path [user_upload_ui] gives the stored file in world
    [w]. *)
Definition upload_name (w : World) (name : string) : string :=
  "ECG_" +:+ Py.strftime_compact (clock w (ticks w)) +:+ upload_ext name.
Definition upload_path (w : World) (username name : string) : string :=
  Py.path_join (Py.path_join BASE_UPLOAD_DIR username) (upload_name w name).

(** The entry [user_upload_ui] records in world [w] for the classifier's
    answer [(l, c)]. *)
Definition upload_item (w : World) (username name l : string) (c : spec_float)
  : HistoryEntry :=
  {| filename := upload_name w name;
     filepath := upload_path w username name;
     timestamp := Py.isoformat (clock w (S (ticks w)));
     label := l;
     confidence := PyFloat.round2 c |}.

(** The world in which [user_upload_ui] opens the file: the folder is
    made and the clock was read once. *)
Definition upload_folder_made (w : World) (username : string) : World :=
  {| users_file := users_file w;
     made_dirs := {[ Py.path_join BASE_UPLOAD_DIR username ]} ∪ made_dirs w;
     files := files w; entropy := entropy w; drawn := drawn w;
     clock := clock w; ticks := S (ticks w); fs_error := fs_error w |}.

(** The world in which [user_upload_ui] calls the classifier: the folder
    is made, the clock was read once and the file is written. *)
Definition upload_written (w : World) (username : string) (f : UploadedFile.t) : World :=
  {| users_file := users_file w;
     made_dirs := {[ Py.path_join BASE_UPLOAD_DIR username ]} ∪ made_dirs w;
     files := <[ upload_path w username (UploadedFile.name f) := UploadedFile.getbuffer f ]>
                (files w);
     entropy := entropy w; drawn := drawn w;
     clock := clock w; ticks := S (ticks w); fs_error := fs_error w |}.

(** The upload of [f] by [username] can be stored in world [w]:
    [os.makedirs] can make the folder of the user and [open] can open the
    file there. *)
Definition can_store (w : World) (username : string) (f : UploadedFile.t) : Prop :=
  makedirs_error w (Py.path_join BASE_UPLOAD_DIR username) = None
  ∧ open_error w (upload_path w username (UploadedFile.name f)) = None.

(** Every stored history has 50 entries at most. *)
Definition histories_capped (w : World) : Prop :=
  ∀ u r, database w !! u = Some r → (length (history r) ≤ 50)%nat.

(** [alice_world] with a clock that stays within one second: its readings
    differ in their microseconds only. *)
Definition busy_world : World :=
  {| users_file := users_file alice_world; made_dirs := made_dirs alice_world;
     files := files alice_world; entropy := entropy alice_world;
     drawn := drawn alice_world;
     clock := fun i => {| Py.year := 2025; Py.month := 6; Py.day := 30;
                          Py.hour := 12; Py.minute := 0; Py.second := 0;
                          Py.microsecond := Z.of_nat i |};
     ticks := 0;
     fs_error := fs_error alice_world |}.

(** * Properties *)

(** The digest is computed by [vm_compute] where an example needs its
    value; no proof below looks into it. *)
Opaque Hashlib.sha256_hexdigest.
Arguments hash_password : simpl never.
Arguments hex_of_bytes : simpl never.
Arguments Py.isoformat : simpl never.
Arguments Py.strftime_compact : simpl never.
Arguments Py.path_join : simpl never.
Arguments Py.strip : simpl never.
Arguments Py.has_space : simpl never.
Arguments Py.splitext_ext : simpl never.
Arguments PyFloat.round2 : simpl never.
Arguments makedirs_error : simpl never.
Arguments open_error : simpl never.

(** ** Making folders *)

Lemma makedirs_upload_folder (w : World) :
  makedirs BASE_UPLOAD_DIR w
  = (Returned tt,
     {| users_file := users_file w; made_dirs := {[ BASE_UPLOAD_DIR ]} ∪ made_dirs w;
        files := files w; entropy := entropy w; drawn := drawn w;
        clock := clock w; ticks := ticks w; fs_error := fs_error w |}).
Proof. reflexivity. Qed.

Lemma makedirs_returns (w : World) (path : string) :
  makedirs_error w path = None →
  makedirs path w
  = (Returned tt,
     {| users_file := users_file w; made_dirs := {[ path ]} ∪ made_dirs w;
        files := files w; entropy := entropy w; drawn := drawn w;
        clock := clock w; ticks := ticks w; fs_error := fs_error w |}).
Proof. intros H. unfold makedirs. by rewrite H. Qed.

Lemma makedirs_raises (w : World) (path exn : string) :
  makedirs_error w path = Some exn → makedirs path w = (Raised exn, w).
Proof. intros H. unfold makedirs. by rewrite H. Qed.

(** ** Reading the database *)

Lemma ensure_files_users_file (w : World) :
  users_file (snd (ensure_files w)) = Some (document w).
Proof.
  unfold ensure_files, bind, document. rewrite makedirs_upload_folder. simpl.
  by destruct (users_file w).
Qed.

Lemma load_users_eq (w : World) :
  load_users w = (document w, snd (ensure_files w)).
Proof.
  unfold load_users, bind.
  pose proof (ensure_files_users_file w) as H.
  destruct (ensure_files w) as [[] w']. simpl in *. by rewrite H.
Qed.

Lemma database_eq (w : World) : database w = users (document w).
Proof. unfold database. by rewrite load_users_eq. Qed.

Lemma ensure_files_database (w : World) : database (snd (ensure_files w)) = database w.
Proof. rewrite !database_eq. unfold document. by rewrite ensure_files_users_file. Qed.

Lemma ensure_files_initialised (w : World) : initialised (snd (ensure_files w)).
Proof.
  split.
  - rewrite ensure_files_users_file. eauto.
  - unfold ensure_files, bind. rewrite makedirs_upload_folder. simpl.
    destruct (users_file w); simpl; set_solver.
Qed.

Lemma ensure_files_idle (w : World) : initialised w → snd (ensure_files w) = w.
Proof.
  intros [[d Hd] Hin]. unfold ensure_files, bind. rewrite makedirs_upload_folder.
  simpl. rewrite Hd. simpl.
  destruct w as [uf md fs en dr cl tk fe]. simpl in *. f_equal; [congruence |].
  apply subseteq_union_1_L. by apply singleton_subseteq_l.
Qed.

Lemma ensure_files_frame (w : World) :
  files (snd (ensure_files w)) = files w
  ∧ drawn (snd (ensure_files w)) = drawn w
  ∧ ticks (snd (ensure_files w)) = ticks w
  ∧ entropy (snd (ensure_files w)) = entropy w
  ∧ clock (snd (ensure_files w)) = clock w.
Proof.
  unfold ensure_files, bind. rewrite makedirs_upload_folder. simpl.
  by destruct (users_file w).
Qed.

Lemma makedirs_error_ext (w w' : World) (path : string) :
  fs_error w' = fs_error w → makedirs_error w' path = makedirs_error w path.
Proof. intros H. unfold makedirs_error. by rewrite H. Qed.

Lemma open_error_ext (w w' : World) (path : string) :
  fs_error w' = fs_error w → open_error w' path = open_error w path.
Proof. intros H. unfold open_error. by rewrite H. Qed.

Lemma ensure_files_fs_error (w : World) : fs_error (snd (ensure_files w)) = fs_error w.
Proof.
  unfold ensure_files, bind. rewrite makedirs_upload_folder. simpl.
  by destruct (users_file w).
Qed.

Lemma database_written (d : Document) (w : World) :
  database (snd (write_users_file d w)) = users d.
Proof. by rewrite database_eq. Qed.

Lemma database_users_file (w w' : World) :
  users_file w' = users_file w → database w' = database w.
Proof. intros H. rewrite !database_eq. unfold document. by rewrite H. Qed.

(** ** What each store function does *)

Lemma create_user_taken (w : World) (u p n : string) (user : UserRecord) :
  database w !! u = Some user →
  create_user u p n w
  = (Returned (false, "Username already exists."), snd (ensure_files w)).
Proof.
  intros H. rewrite database_eq in H.
  unfold create_user, bind. rewrite load_users_eq. by rewrite H.
Qed.

(** For a fresh username the record is saved before the folder is made:
    the outcome is that of [os.makedirs], the rest is the same either
    way. *)
Lemma create_user_fresh (w : World) (u p n : string) :
  database w !! u = None →
  fst (create_user u p n w)
  = match makedirs_error w (Py.path_join BASE_UPLOAD_DIR u) with
    | Some exn => Raised exn
    | None => Returned (true, "User created.")
    end
  ∧ database (snd (create_user u p n w)) = <[ u := new_record w p n ]> (database w)
  ∧ drawn (snd (create_user u p n w)) = (drawn w + 8)%nat
  ∧ ticks (snd (create_user u p n w)) = S (ticks w)
  ∧ files (snd (create_user u p n w)) = files w.
Proof.
  intros H. rewrite database_eq in H.
  destruct (ensure_files_frame w) as (Hf & Hd & Ht & He & Hc).
  unfold create_user, bind. rewrite load_users_eq, H.
  unfold token_hex, token_bytes, datetime_now, save_users, write_users_file,
    makedirs, ret, bind. simpl.
  erewrite (makedirs_error_ext w) by (simpl; apply ensure_files_fs_error).
  destruct (makedirs_error w (Py.path_join BASE_UPLOAD_DIR u)) as [exn|];
    simpl; rewrite Hf, Hd, Ht, He, Hc; repeat split; try reflexivity;
    rewrite (database_eq w); reflexivity.
Qed.


Lemma verify_user_world (w : World) (u p : string) :
  snd (verify_user u p w) = snd (ensure_files w).
Proof.
  unfold verify_user, bind. rewrite load_users_eq.
  destruct (users (document w) !! u) as [user|]; [|done].
  by destruct (bool_decide _).
Qed.

Lemma add_history_database (w : World) (u : string) (e : HistoryEntry) :
  database (snd (add_history_for_user u e w)) = add_history_db u e (database w).
Proof.
  unfold add_history_for_user, add_history_db, bind.
  rewrite load_users_eq, (database_eq w).
  destruct (users (document w) !! u) as [user|].
  - apply database_written.
  - simpl. rewrite ensure_files_database. apply database_eq.
Qed.

Lemma add_history_frame (w : World) (u : string) (e : HistoryEntry) :
  files (snd (add_history_for_user u e w)) = files w
  ∧ drawn (snd (add_history_for_user u e w)) = drawn w
  ∧ ticks (snd (add_history_for_user u e w)) = ticks w.
Proof.
  destruct (ensure_files_frame w) as (Hf & Hd & Ht & _).
  unfold add_history_for_user, bind. rewrite load_users_eq.
  by destruct (users (document w) !! u).
Qed.

(** The four ways through [user_upload_ui]: [os.makedirs] raises, [open]
    raises, the classifier raises, or the entry is recorded. *)
Lemma user_upload_ui_cases
    (model : option KerasModel) (w : World) (u : string) (f : UploadedFile.t) :
  user_upload_ui model u (Some f) w =
    match makedirs_error w (Py.path_join BASE_UPLOAD_DIR u) with
    | Some exn => (Raised exn, w)
    | None =>
        match open_error w (upload_path w u (UploadedFile.name f)) with
        | Some exn => (Raised exn, upload_folder_made w u)
        | None =>
            match classify_images model (upload_path w u (UploadedFile.name f))
                    (upload_written w u f) with
            | Raised exn => (Raised exn, upload_written w u f)
            | Returned (l, c) =>
                (Returned (Some (upload_item w u (UploadedFile.name f) l c)),
                 snd (add_history_for_user u (upload_item w u (UploadedFile.name f) l c)
                        (snd (datetime_now (upload_written w u f)))))
            end
        end
    end.
Proof.
  unfold user_upload_ui, bind, ret.
  destruct (makedirs_error w (Py.path_join BASE_UPLOAD_DIR u)) as [exn|] eqn:Hmk.
  { by rewrite (makedirs_raises w _ _ Hmk). }
  rewrite (makedirs_returns w _ Hmk).
  unfold datetime_now, write_file.
  cbn [fst snd users_file made_dirs files entropy drawn clock ticks fs_error].
  fold (upload_ext (UploadedFile.name f)). fold (upload_name w (UploadedFile.name f)).
  fold (upload_path w u (UploadedFile.name f)). fold (upload_folder_made w u).
  rewrite (open_error_ext w (upload_folder_made w u)) by reflexivity.
  destruct (open_error w (upload_path w u (UploadedFile.name f))) as [exn|]; [reflexivity|].
  cbn [fst snd users_file made_dirs files entropy drawn clock ticks fs_error
       upload_folder_made].
  fold (upload_written w u f).
  destruct (classify_images model (upload_path w u (UploadedFile.name f))
              (upload_written w u f)) as [[l c]|exn]; [|reflexivity].
  cbn [fst snd users_file made_dirs files entropy drawn clock ticks fs_error
       upload_written].
  fold (upload_written w u f). fold (upload_item w u (UploadedFile.name f) l c).
  match goal with |- context [add_history_for_user ?a ?b ?c] =>
    by destruct (add_history_for_user a b c) as [[] w'] end.
Qed.

Lemma add_history_db_lookup (db : gmap string UserRecord) (u v : string) (e : HistoryEntry) :
  add_history_db u e db !! v =
    if decide (u = v)
    then (fun user => with_history (take 50 (e :: history user)) user) <$> db !! v
    else db !! v.
Proof.
  unfold add_history_db. destruct (decide (u = v)) as [->|Hne].
  - destruct (db !! v) as [user|] eqn:Hv; simpl.
    + by rewrite lookup_insert_eq.
    + by rewrite Hv.
  - destruct (db !! u); [by rewrite lookup_insert_ne | done].
Qed.

Lemma verify_user_result (w : World) (u p : string) :
  fst (verify_user u p w) =
    match database w !! u with
    | None => (false, "Username not found.")
    | Some user =>
        if bool_decide (hash_password p (salt user) = pwd_hash user)
        then (true, "Login successful.")
        else (false, "Incorrect password.")
    end.
Proof.
  unfold verify_user, bind. rewrite load_users_eq, database_eq.
  destruct (users (document w) !! u) as [user|]; [|done].
  by destruct (bool_decide _).
Qed.

Lemma database_some_file (w : World) (u : string) (user : UserRecord) :
  database w !! u = Some user → users_file w = Some (document w).
Proof.
  rewrite database_eq. unfold document.
  destruct (users_file w) as [d|]; [done|]. simpl. by rewrite lookup_empty.
Qed.

(** ** Account creation and authentication *)




(** C3. In every state of the database, [verify_user] fails with
    "Username not found." when the username is not a key, fails with
    "Incorrect password." when it is a key and [hash_password] of the
    password and the stored salt differs from the stored [pwd_hash], and
    succeeds otherwise; the database is the same afterwards. *)
Theorem verify_user_cases (w : World) (username password : string) :
  (database w !! username = None →
     fst (verify_user username password w) = (false, "Username not found."))
  ∧ (∀ user, database w !! username = Some user →
       hash_password password (salt user) ≠ pwd_hash user →
       fst (verify_user username password w) = (false, "Incorrect password."))
  ∧ (∀ user, database w !! username = Some user →
       hash_password password (salt user) = pwd_hash user →
       fst (verify_user username password w) = (true, "Login successful."))
  ∧ database (snd (verify_user username password w)) = database w.
Proof.
  rewrite verify_user_result, verify_user_world, ensure_files_database.
  split; [|split; [|split]]; try done.
  - by intros ->.
  - intros user -> Hne. by rewrite bool_decide_eq_false_2.
  - intros user -> Heq. by rewrite bool_decide_eq_true_2.
Qed.

Lemma verify_user_cases_witness :
  fst (verify_user "bob" "x" alice_world) = (false, "Username not found.")
  ∧ fst (verify_user "alice" "wrong" alice_world) = (false, "Incorrect password.")
  ∧ fst (verify_user "alice" "p@ss1" alice_world) = (true, "Login successful.").
Proof.
  destruct (verify_user_cases alice_world "bob" "x") as (Hnone & _).
  destruct (verify_user_cases alice_world "alice" "wrong") as (_ & Hwrong & _).
  destruct (verify_user_cases alice_world "alice" "p@ss1") as (_ & _ & Hright & _).
  split; [|split].
  - apply Hnone. vm_compute. reflexivity.
  - apply (Hwrong (new_record fresh_world "p@ss1" "Alice")).
    + vm_compute. reflexivity.
    + vm_compute. discriminate.
  - apply (Hright (new_record fresh_world "p@ss1" "Alice")); vm_compute; reflexivity.
Defined.

(** C4. For every username that is a key of the database, [create_user]
    with that username fails with "Username already exists.", and the whole
    database, the record of that user included, is what it was. *)
Theorem create_user_existing_rejected
    (w : World) (username password full_name : string) (user : UserRecord) :
  database w !! username = Some user →
  fst (create_user username password full_name w)
  = Returned (false, "Username already exists.")
  ∧ users_file (snd (create_user username password full_name w)) = users_file w
  ∧ database (snd (create_user username password full_name w)) = database w
  ∧ database (snd (create_user username password full_name w)) !! username = Some user
  ∧ drawn (snd (create_user username password full_name w)) = drawn w
  ∧ ticks (snd (create_user username password full_name w)) = ticks w
  ∧ files (snd (create_user username password full_name w)) = files w.
Proof.
  intros Hold.
  rewrite (create_user_taken w username password full_name user Hold). simpl.
  destruct (ensure_files_frame w) as (Hf & Hd & Ht & _).
  rewrite ensure_files_users_file, ensure_files_database.
  by rewrite (database_some_file w username user Hold).
Qed.

Lemma create_user_existing_rejected_witness :
  database alice_world !! "alice" = Some (new_record fresh_world "p@ss1" "Alice")
  ∧ fst (create_user "alice" "other" "Mallory" alice_world)
    = Returned (false, "Username already exists.")
  ∧ database (snd (create_user "alice" "other" "Mallory" alice_world)) = database alice_world.
Proof.
  split; [vm_compute; reflexivity|].
  destruct (create_user_existing_rejected alice_world "alice" "other" "Mallory"
              (new_record fresh_world "p@ss1" "Alice")) as (H1 & _ & H3 & _);
    [vm_compute; reflexivity|].
  exact (conj H1 H3).
Defined.

(** A second [create_user] with the username of a first, successful one. *)
Lemma create_user_twice (w : World) (u p n p' n' : string) :
  database w !! u = None →
  fst (create_user u p' n' (snd (create_user u p n w)))
  = Returned (false, "Username already exists.")
  ∧ database (snd (create_user u p' n' (snd (create_user u p n w))))
    = database (snd (create_user u p n w)).
Proof.
  intros Hnew.
  destruct (create_user_fresh w u p n Hnew) as (_ & Hdb & _).
  assert (database (snd (create_user u p n w)) !! u = Some (new_record w p n)) as Hold
    by (by rewrite Hdb, lookup_insert_eq).
  rewrite (create_user_taken _ u p' n' _ Hold). simpl.
  by rewrite ensure_files_database.
Qed.





(** ** The history *)

(** C2. For a username that is a key of the database,
    [add_history_for_user] puts the entry at index 0 of that user's history
    and keeps the first 50 elements: after E1 then E2, [history[0]] is E2
    and [history[1]] is E1; the history has at most 50 entries afterwards,
    and an entry added to a history of 50 drops the last, oldest one. *)
Theorem add_history_for_user_newest_first_capped
    (w : World) (username : string) (user : UserRecord) (e1 e2 : HistoryEntry) :
  database w !! username = Some user →
  (∃ user1,
      database (snd (add_history_for_user username e1 w)) !! username = Some user1
      ∧ history user1 = take 50 (e1 :: history user)
      ∧ history user1 !! 0%nat = Some e1
      ∧ (length (history user1) ≤ 50)%nat
      ∧ ((50 ≤ length (history user))%nat →
           history user1 = e1 :: take 49 (history user)
           ∧ length (history user1) = 50%nat))
  ∧ (∃ user2,
      database (snd (add_history_for_user username e2
                       (snd (add_history_for_user username e1 w)))) !! username
        = Some user2
      ∧ history user2 !! 0%nat = Some e2
      ∧ history user2 !! 1%nat = Some e1
      ∧ (length (history user2) ≤ 50)%nat).
Proof.
  intros Hold.
  assert (database (snd (add_history_for_user username e1 w)) !! username
          = Some (with_history (take 50 (e1 :: history user)) user)) as H1.
  { rewrite add_history_database, add_history_db_lookup, decide_True by done.
    by rewrite Hold. }
  split.
  - eexists. split; [exact H1|]. simpl.
    split; [reflexivity|]. split; [reflexivity|]. split.
    + rewrite length_take. lia.
    + intros Hfull. split; [reflexivity|]. rewrite length_take. lia.
  - eexists. split.
    + rewrite add_history_database, add_history_db_lookup, decide_True by done.
      rewrite H1. reflexivity.
    + simpl. split; [reflexivity|]. split; [reflexivity|].
      rewrite !length_take. lia.
Qed.

Lemma add_history_for_user_newest_first_capped_witness :
  let e1 := {| filename := "a.png"; filepath := "upload/alice/a.png"; timestamp := "T1";
               label := "Normal ECG"; confidence := PyFloat.zero |} in
  let e2 := {| filename := "b.png"; filepath := "upload/alice/b.png"; timestamp := "T2";
               label := "Normal ECG"; confidence := PyFloat.zero |} in
  database alice_world !! "alice" = Some (new_record fresh_world "p@ss1" "Alice")
  ∧ ∃ user2,
      database (snd (add_history_for_user "alice" e2
                       (snd (add_history_for_user "alice" e1 alice_world)))) !! "alice"
        = Some user2
      ∧ history user2 !! 0%nat = Some e2
      ∧ history user2 !! 1%nat = Some e1
      ∧ (length (history user2) ≤ 50)%nat.
Proof.
  intros e1 e2. split; [vm_compute; reflexivity|].
  apply (add_history_for_user_newest_first_capped alice_world "alice"
           (new_record fresh_world "p@ss1" "Alice") e1 e2).
  vm_compute. reflexivity.
Defined.

(** C8. For a username that is not a key of the database,
    [add_history_for_user] does nothing beyond reading the database:
    [save_users] is not reached, the database is the same afterwards, and
    an initialised world is left exactly as it was. *)
Theorem add_history_for_user_unknown_noop
    (w : World) (username : string) (item : HistoryEntry) :
  database w !! username = None →
  add_history_for_user username item w = (tt, snd (load_users w))
  ∧ database (snd (add_history_for_user username item w)) = database w
  ∧ (∀ d, users_file w = Some d →
       users_file (snd (add_history_for_user username item w)) = Some d)
  ∧ (initialised w → snd (add_history_for_user username item w) = w).
Proof.
  intros Hnew. rewrite database_eq in Hnew.
  assert (add_history_for_user username item w = (tt, snd (load_users w))) as ->.
  { unfold add_history_for_user, bind. rewrite load_users_eq. by rewrite Hnew. }
  rewrite load_users_eq. simpl. split; [done|].
  split; [apply ensure_files_database|]. split.
  - intros d Hd. rewrite ensure_files_users_file. unfold document. by rewrite Hd.
  - apply ensure_files_idle.
Qed.

Lemma add_history_for_user_unknown_noop_witness :
  let e := {| filename := "a.png"; filepath := "upload/bob/a.png"; timestamp := "T1";
              label := "Normal ECG"; confidence := PyFloat.zero |} in
  database alice_world !! "bob" = None
  ∧ initialised alice_world
  ∧ snd (add_history_for_user "bob" e alice_world) = alice_world.
Proof.
  intros e.
  assert (database alice_world !! "bob" = None) as Hnew by (vm_compute; reflexivity).
  assert (initialised alice_world) as Hinit.
  { split; [vm_compute; eauto|]. vm_compute. reflexivity. }
  split; [exact Hnew|]. split; [exact Hinit|].
  apply (add_history_for_user_unknown_noop alice_world "bob" e Hnew). exact Hinit.
Defined.

(** C9. For a username that is a key of the database,
    [add_history_for_user] changes the history of that user only: the
    records of all other users are the same, and so are [full_name],
    [salt], [pwd_hash] and [created_at] of the user. *)
Theorem add_history_for_user_frame
    (w : World) (username : string) (user : UserRecord) (item : HistoryEntry) :
  database w !! username = Some user →
  (∀ other, other ≠ username →
     database (snd (add_history_for_user username item w)) !! other = database w !! other)
  ∧ ∃ user',
      database (snd (add_history_for_user username item w)) !! username = Some user'
      ∧ full_name user' = full_name user
      ∧ salt user' = salt user
      ∧ pwd_hash user' = pwd_hash user
      ∧ created_at user' = created_at user.
Proof.
  intros Hold. rewrite add_history_database. split.
  - intros other Hne. rewrite add_history_db_lookup. by rewrite decide_False.
  - rewrite add_history_db_lookup, decide_True, Hold by done.
    eexists. split; [reflexivity|]. done.
Qed.

Lemma add_history_for_user_frame_witness :
  let e := {| filename := "a.png"; filepath := "upload/alice/a.png"; timestamp := "T1";
              label := "Normal ECG"; confidence := PyFloat.zero |} in
  database alice_world !! "alice" = Some (new_record fresh_world "p@ss1" "Alice")
  ∧ ∃ user',
      database (snd (add_history_for_user "alice" e alice_world)) !! "alice" = Some user'
      ∧ full_name user' = "Alice"
      ∧ salt user' = "0001020304050607"
      ∧ pwd_hash user' = pwd_hash (new_record fresh_world "p@ss1" "Alice")
      ∧ created_at user' = "2025-01-01T00:00:00".
Proof.
  intros e. split; [vm_compute; reflexivity|].
  apply (add_history_for_user_frame alice_world "alice"
           (new_record fresh_world "p@ss1" "Alice") e).
  vm_compute. reflexivity.
Defined.

(** ** What a sequence of calls keeps *)

Lemma same_account_trans (a b c : UserRecord) :
  same_account a b → same_account b c → same_account a c.
Proof. unfold same_account. intros (?&?&?&?) (?&?&?&?). repeat split; congruence. Qed.

Lemma add_history_db_same_account
    (db : gmap string UserRecord) (u v : string) (e : HistoryEntry) (r : UserRecord) :
  db !! v = Some r →
  ∃ r', add_history_db u e db !! v = Some r' ∧ same_account r r'.
Proof.
  intros Hv. rewrite add_history_db_lookup, Hv.
  destruct (decide (u = v)); eexists; (split; [reflexivity|]); done.
Qed.

Lemma create_user_same_account (w : World) (u p n v : string) (r : UserRecord) :
  database w !! v = Some r →
  database (snd (create_user u p n w)) !! v = Some r.
Proof.
  intros Hv. destruct (database w !! u) as [user|] eqn:Hu.
  - rewrite (create_user_taken w u p n user Hu). simpl.
    by rewrite ensure_files_database.
  - destruct (create_user_fresh w u p n Hu) as (_ & -> & _).
    rewrite lookup_insert_ne; [done|]. congruence.
Qed.

Lemma show_signup_same_account
    (w : World) (s : bool) (u n p c v : string) (r : UserRecord) :
  database w !! v = Some r →
  database (snd (show_signup s u n p c w)) !! v = Some r.
Proof.
  intros Hv. unfold show_signup.
  destruct s; [|done].
  destruct (bool_decide (u = "") || bool_decide (p = "")); [done|].
  destruct (Py.has_space u); [done|].
  destruct (negb (bool_decide (p = c))); [done|].
  unfold bind.
  pose proof (create_user_same_account w (Py.strip u) p (Py.strip n) v r Hv) as H.
  destruct (create_user (Py.strip u) p (Py.strip n) w) as [[[ok msg]|exn] w'];
    simpl in *; [by destruct ok|done].
Qed.

Lemma user_upload_ui_database
    (model : option KerasModel) (w : World) (u : string) (f : option UploadedFile.t) :
  database (snd (user_upload_ui model u f w)) = database w
  ∨ ∃ item, database (snd (user_upload_ui model u f w)) = add_history_db u item (database w).
Proof.
  destruct f as [f|]; [|by left].
  rewrite user_upload_ui_cases.
  destruct (makedirs_error w (Py.path_join BASE_UPLOAD_DIR u)) as [exn|]; [by left|].
  destruct (open_error w (upload_path w u (UploadedFile.name f))) as [exn|];
    [left; by apply database_users_file|].
  destruct (classify_images model _ (upload_written w u f)) as [[l c]|exn];
    [|left; by apply database_users_file].
  right. eexists. cbn [snd]. rewrite add_history_database. f_equal.
  by apply database_users_file.
Qed.

Lemma call_same_account (c : Call) (w : World) (v : string) (r : UserRecord) :
  database w !! v = Some r →
  ∃ r', database (call c w) !! v = Some r' ∧ same_account r r'.
Proof.
  intros Hv. destruct c as [u p n|u p|u e|s u n p c|m u f]; simpl.
  - exists r. split; [by apply create_user_same_account | done].
  - exists r. rewrite verify_user_world, ensure_files_database. done.
  - rewrite add_history_database. by apply add_history_db_same_account.
  - exists r. split; [by apply show_signup_same_account | done].
  - destruct (user_upload_ui_database m w u f) as [->|[item ->]].
    + exists r. done.
    + by apply add_history_db_same_account.
Qed.

Lemma calls_same_account (cs : list Call) (w : World) (v : string) (r : UserRecord) :
  database w !! v = Some r →
  ∃ r', database (calls cs w) !! v = Some r' ∧ same_account r r'.
Proof.
  revert w r. induction cs as [|c cs IH]; intros w r Hv.
  - exists r. done.
  - destruct (call_same_account c w v r Hv) as (r1 & H1 & Hs1).
    destruct (IH (call c w) r1 H1) as (r2 & H2 & Hs2).
    exists r2. split; [exact H2|]. by eapply same_account_trans.
Qed.

(** The random source is only ever read forwards. *)
Lemma create_user_drawn (w : World) (u p n : string) :
  (drawn w ≤ drawn (snd (create_user u p n w)))%nat.
Proof.
  destruct (database w !! u) as [user|] eqn:Hu.
  - rewrite (create_user_taken w u p n user Hu). simpl.
    destruct (ensure_files_frame w) as (_ & -> & _). lia.
  - destruct (create_user_fresh w u p n Hu) as (_ & _ & -> & _). lia.
Qed.

Lemma user_upload_ui_drawn
    (model : option KerasModel) (w : World) (u : string) (f : option UploadedFile.t) :
  drawn (snd (user_upload_ui model u f w)) = drawn w.
Proof.
  destruct f as [f|]; [|done].
  rewrite user_upload_ui_cases.
  destruct (makedirs_error w (Py.path_join BASE_UPLOAD_DIR u)) as [exn|]; [done|].
  destruct (open_error w (upload_path w u (UploadedFile.name f))) as [exn|]; [done|].
  destruct (classify_images model _ (upload_written w u f)) as [[l c]|exn]; [|done].
  cbn [snd].
  by destruct (add_history_frame (snd (datetime_now (upload_written w u f))) u
                 (upload_item w u (UploadedFile.name f) l c)) as (_ & -> & _).
Qed.

Lemma call_drawn (c : Call) (w : World) : (drawn w ≤ drawn (call c w))%nat.
Proof.
  destruct c as [u p n|u p|u e|s u n p c|m u f]; simpl.
  - apply create_user_drawn.
  - rewrite verify_user_world. destruct (ensure_files_frame w) as (_ & -> & _). lia.
  - destruct (add_history_frame w u e) as (_ & -> & _). lia.
  - unfold show_signup. destruct s; [|done].
    destruct (bool_decide (u = "") || bool_decide (p = "")); [done|].
    destruct (Py.has_space u); [done|].
    destruct (negb (bool_decide (p = c))); [done|].
    unfold bind. pose proof (create_user_drawn w (Py.strip u) p (Py.strip n)) as H.
    destruct (create_user (Py.strip u) p (Py.strip n) w) as [[[ok msg]|exn] w'];
      simpl in *; [by destruct ok|done].
  - rewrite user_upload_ui_drawn. lia.
Qed.

Lemma calls_drawn (cs : list Call) (w : World) : (drawn w ≤ drawn (calls cs w))%nat.
Proof.
  revert w. induction cs as [|c cs IH]; intros w; [done|].
  change (calls (c :: cs) w) with (calls cs (call c w)).
  pose proof (call_drawn c w). pose proof (IH (call c w)). lia.
Qed.

Lemma hex_of_bytes_length (bs : list Byte.byte) :
  String.length (hex_of_bytes bs) = (2 * length bs)%nat.
Proof.
  induction bs as [|b bs IH]; [reflexivity|].
  change (hex_of_bytes (b :: bs))
    with (hex_digits 2 (Z.of_N (Byte.to_N b)) (hex_of_bytes bs)).
  unfold hex_digits. cbn [String.length length]. rewrite IH. lia.
Qed.

(** [" " in s] holds when [s] has the character U+0020 somewhere. *)
Lemma has_space_spec (s : string) :
  Py.has_space s = true ↔ ∃ a b, s = a +:+ " " +:+ b.
Proof.
  induction s as [|c s IH].
  - split; [done|]. intros ([|? ?] & b & H); discriminate H.
  - change (Py.has_space (String c s))
      with ((byte_of_ascii c =? 32) || Py.has_space s).
    rewrite orb_true_iff, IH. split.
    + intros [Hc|(a & b & ->)].
      * exists "", s. apply Z.eqb_eq in Hc.
        assert (c = " "%char) as ->; [|done].
        unfold byte_of_ascii in Hc. apply (f_equal Z.to_N) in Hc.
        rewrite N2Z.id in Hc.
        rewrite <- (Ascii.ascii_N_embedding c), Hc. reflexivity.
      * by exists (String c a), b.
    + intros ([|c' a] & b & H); injection H as -> ->.
      * by left.
      * right. by exists a, b.
Qed.

(** ** The salt *)

(** C6, as the specification states it, fails: the salt [create_user]
    stores for "alice" has 16 characters, so it is the hexadecimal text of
    8 bytes and of no sequence of 16 bytes or more. *)
Lemma create_user_salt_not_16_bytes :
  database fresh_world !! "alice" = None
  ∧ ∃ user,
      database (snd (create_user "alice" "p@ss1" "Alice" fresh_world)) !! "alice" = Some user
      ∧ String.length (salt user) = 16%nat
      ∧ ¬ ∃ bs : list Byte.byte, (16 ≤ length bs)%nat ∧ salt user = hex_of_bytes bs.
Proof.
  split; [vm_compute; reflexivity|].
  exists (new_record fresh_world "p@ss1" "Alice").
  split; [vm_compute; reflexivity|].
  assert (String.length (salt (new_record fresh_world "p@ss1" "Alice")) = 16%nat) as Hlen
    by (vm_compute; reflexivity).
  split; [exact Hlen|].
  intros (bs & Hbs & Heq). rewrite Heq, hex_of_bytes_length in Hlen. lia.
Qed.

(** C6, amended. For every successful [create_user], and for every one
    that saved the record before [os.makedirs] raised, the salt of the new
    record is the hexadecimal text, 16 characters long, of the 8 bytes that
    [secrets.token_hex(8)] draws from the random source at that call; the
    bytes are consumed by the draw, no later call reads them again, and no
    later sequence of calls changes the salt of the record. *)
Theorem create_user_salt_token_hex_8
    (w : World) (username password full_name : string) :
  database w !! username = None →
  ∃ user,
    database (snd (create_user username password full_name w)) !! username = Some user
    ∧ salt user = hex_of_bytes (next_token w)
    ∧ length (next_token w) = 8%nat
    ∧ (∀ i, (i < 8)%nat → next_token w !! i = Some (entropy w (drawn w + i)%nat))
    ∧ String.length (salt user) = 16%nat
    ∧ drawn (snd (create_user username password full_name w)) = (drawn w + 8)%nat
    ∧ ∀ cs,
        (drawn w + 8 ≤ drawn (calls cs (snd (create_user username password full_name w))))%nat
        ∧ ∃ user',
            database (calls cs (snd (create_user username password full_name w))) !! username
              = Some user'
            ∧ salt user' = salt user.
Proof.
  intros Hnew.
  destruct (create_user_fresh w username password full_name Hnew) as (_ & Hdb & Hdr & _).
  assert (database (snd (create_user username password full_name w)) !! username
          = Some (new_record w password full_name)) as Hrec
    by (by rewrite Hdb, lookup_insert_eq).
  exists (new_record w password full_name).
  split; [exact Hrec|]. split; [reflexivity|]. split; [reflexivity|]. split.
  { intros i Hi. unfold next_token.
    rewrite list_lookup_fmap, lookup_seq_lt by done. reflexivity. }
  split.
  { change (salt (new_record w password full_name)) with (hex_of_bytes (next_token w)).
    rewrite hex_of_bytes_length. reflexivity. }
  split; [exact Hdr|].
  intros cs. split.
  { rewrite <- Hdr. apply calls_drawn. }
  destruct (calls_same_account cs _ username _ Hrec) as (user' & Hu' & _ & Hsalt & _).
  exists user'. split; [exact Hu'|]. by symmetry.
Qed.

Lemma create_user_salt_token_hex_8_witness :
  database fresh_world !! "alice" = None
  ∧ ∃ user,
      database alice_world !! "alice" = Some user
      ∧ salt user = "0001020304050607"
      ∧ ∃ user',
          database (calls [AddHistory "alice"
                            {| filename := "a.png"; filepath := "upload/alice/a.png";
                               timestamp := "T1"; label := "Normal ECG";
                               confidence := PyFloat.zero |};
                           CreateUser "bob" "hunter2" "Bob";
                           CreateUser "alice" "other" "Mallory"] alice_world) !! "alice"
            = Some user'
          ∧ salt user' = salt user.
Proof.
  assert (database fresh_world !! "alice" = None) as Hnew by (vm_compute; reflexivity).
  split; [exact Hnew|].
  destruct (create_user_salt_token_hex_8 fresh_world "alice" "p@ss1" "Alice" Hnew)
    as (user & Hu & Hsalt & _ & _ & _ & _ & Hkeep).
  exists user. split; [exact Hu|]. split; [rewrite Hsalt; vm_compute; reflexivity|].
  apply Hkeep.
Defined.

(** ** The sign-up form *)

(** C5, as the specification states it, fails: a username with a tab in it
    has whitespace, yet [show_signup] shows no warning for it, calls
    [create_user] and a record is stored. *)
Lemma show_signup_tab_username_accepted :
  Py.has_whitespace ("al" +:+ tab +:+ "ice") = true
  ∧ database fresh_world !! ("al" +:+ tab +:+ "ice") = None
  ∧ fst (show_signup true ("al" +:+ tab +:+ "ice") "" "pw" "pw" fresh_world)
    = Returned (Some (st_success "Account created. Please log in below."))
  ∧ (¬ ∃ msg, fst (show_signup true ("al" +:+ tab +:+ "ice") "" "pw" "pw" fresh_world)
              = Returned (Some (st_warning msg)))
  ∧ is_Some (database (snd (show_signup true ("al" +:+ tab +:+ "ice") "" "pw" "pw"
                              fresh_world)) !! ("al" +:+ tab +:+ "ice")).
Proof.
  assert (fst (show_signup true ("al" +:+ tab +:+ "ice") "" "pw" "pw" fresh_world)
          = Returned (Some (st_success "Account created. Please log in below."))) as Hok
    by (vm_compute; reflexivity).
  split; [vm_compute; reflexivity|]. split; [vm_compute; reflexivity|].
  split; [exact Hok|]. split.
  - intros (msg & Hmsg). rewrite Hok in Hmsg. discriminate Hmsg.
  - vm_compute. eauto.
Qed.

(** C5, amended. A submitted sign-up form shows a validation warning, and
    leaves the world as it is, exactly when the username is empty, the
    password is empty, the username has a space character (U+0020) in it,
    or the password differs from its confirmation; otherwise it is
    [create_user] on the stripped username and full name, whose outcome is
    shown as a success or an error; an exception of [create_user] passes
    through. *)
Theorem show_signup_validation
    (w : World) (new_username full_name new_password confirm_password : string) :
  let rejected :=
    new_username = "" ∨ new_password = "" ∨ Py.has_space new_username = true
    ∨ new_password ≠ confirm_password in
  let r := show_signup true new_username full_name new_password confirm_password w in
  let c := create_user (Py.strip new_username) new_password (Py.strip full_name) w in
  (rejected ↔ ∃ msg, fst r = Returned (Some (st_warning msg)))
  ∧ (rejected → snd r = w)
  ∧ (¬ rejected →
       snd r = snd c
       ∧ fst r = match fst c with
                 | Returned (ok, msg) =>
                     Returned (Some (if ok
                                     then st_success "Account created. Please log in below."
                                     else st_error msg))
                 | Raised exn => Raised exn
                 end).
Proof.
  intros rejected r c. subst rejected r c. unfold show_signup, bind, ret.
  destruct (decide (new_username = "")) as [Hu|Hu].
  { rewrite bool_decide_eq_true_2 by done. simpl. split; [|split]; [split| |]; eauto.
    intros Hn. destruct Hn. by left. }
  destruct (decide (new_password = "")) as [Hp|Hp].
  { rewrite (bool_decide_eq_true_2 (new_password = "")) by done. rewrite orb_true_r. simpl.
    split; [|split]; [split| |]; eauto. intros Hn. destruct Hn. right. by left. }
  rewrite !bool_decide_eq_false_2 by done. simpl.
  destruct (Py.has_space new_username) eqn:Hs.
  { split; [|split]; [split| |]; eauto.
    intros Hn. destruct Hn. right. right. by left. }
  destruct (decide (new_password = confirm_password)) as [Hc|Hc].
  - rewrite bool_decide_eq_true_2 by done. simpl.
    assert (¬ (new_username = "" ∨ new_password = "" ∨ false = true
               ∨ new_password ≠ confirm_password)) as Hnot
      by (intros [?|[?|[?|?]]]; done).
    destruct (create_user (Py.strip new_username) new_password (Py.strip full_name) w)
      as [[[ok msg]|exn] w']; simpl.
    * split; [|split]; [split| |]; try done.
      -- intros (m & Hm). by destruct ok.
      -- intros _. by destruct ok.
    * split; [|split]; [split| |]; try done.
      intros (m & Hm). discriminate Hm.
  - rewrite bool_decide_eq_false_2 by done. simpl.
    split; [|split]; [split| |]; eauto.
    intros Hn. destruct Hn. right. right. by right.
Qed.

Lemma show_signup_validation_witness :
  (∃ msg, fst (show_signup true "al ice" "" "pw" "pw" fresh_world)
          = Returned (Some (st_warning msg)))
  ∧ snd (show_signup true "al ice" "" "pw" "pw" fresh_world) = fresh_world
  ∧ snd (show_signup true "alice" " Alice " "pw" "pw" fresh_world)
    = snd (create_user "alice" "pw" "Alice" fresh_world).
Proof.
  destruct (show_signup_validation fresh_world "al ice" "" "pw" "pw") as (H1 & H2 & _).
  destruct (show_signup_validation fresh_world "alice" " Alice " "pw" "pw") as (_ & _ & H3).
  assert ("al ice" = "" ∨ "pw" = "" ∨ Py.has_space "al ice" = true ∨ "pw" ≠ "pw") as Hrej
    by (right; right; left; vm_compute; reflexivity).
  split; [exact (proj1 H1 Hrej)|]. split; [exact (H2 Hrej)|].
  assert (¬ ("alice" = "" ∨ "pw" = "" ∨ Py.has_space "alice" = true ∨ "pw" ≠ "pw")) as Hacc.
  { intros [?|[?|[?|?]]]; done. }
  exact (proj1 (H3 Hacc)).
Defined.

(** ** Uploads without a classifier *)




(** ** The scenarios of the specification *)

(** 52 entries with the timestamps T01 to T52 are added for "alice": 50
    remain, the newest is T52 and the oldest is T03. *)
Example history_of_52_entries :
  let w := calls (map (fun t => AddHistory "alice" (entry_at t)) (seq 1 52)) alice_world in
  (history <$> database w !! "alice") = Some (map entry_at (reverse (seq 3 50)))
  ∧ (length <$> (history <$> database w !! "alice")) = Some 50%nat
  ∧ (timestamp <$> ((history <$> database w !! "alice") ≫= (.!! 0%nat))) = Some "T52"
  ∧ (timestamp <$> ((history <$> database w !! "alice") ≫= (.!! 49%nat))) = Some "T03".
Proof. vm_compute. done. Qed.

(** "alice" with the password "p@ss1": the right password is accepted, a
    wrong one gives "Incorrect password." and "bob" is not found. *)
Example alice_scenario :
  fst (verify_user "alice" "p@ss1" alice_world) = (true, "Login successful.")
  ∧ fst (verify_user "alice" "wrong" alice_world) = (false, "Incorrect password.")
  ∧ fst (verify_user "bob" "x" alice_world) = (false, "Username not found.").
Proof. vm_compute. done. Qed.

(** [signup("al ice", "pw", "pw", "")] is refused and no record is made. *)
Example signup_with_space_scenario :
  show_signup true "al ice" "" "pw" "pw" fresh_world
  = (Returned (Some (st_warning "Username cannot contain spaces.")), fresh_world).
Proof. reflexivity. Qed.

(** The digest is the SHA-256 of FIPS 180-4. *)
Example sha256_abc :
  Hashlib.sha256_hexdigest "abc"
  = "ba7816bf8f01cfea414140de5dae2223b00361a396177a9cb410ff61f20015ad".
Proof. vm_compute. reflexivity. Qed.


(** * Further properties of the store *)

(** ** The database file *)

(** [ensure_files] leaves an initialised world, does nothing when run
    again, keeps an existing [users.json] as it is and writes the empty
    database when there is none. *)
Theorem ensure_files_idempotent (w : World) :
  initialised (snd (ensure_files w))
  ∧ snd (ensure_files (snd (ensure_files w))) = snd (ensure_files w)
  ∧ (∀ d, users_file w = Some d → users_file (snd (ensure_files w)) = Some d)
  ∧ (users_file w = None → users_file (snd (ensure_files w)) = Some {| users := ∅ |})
  ∧ BASE_UPLOAD_DIR ∈ made_dirs (snd (ensure_files w)).
Proof.
  pose proof (ensure_files_initialised w) as Hinit.
  split; [exact Hinit|]. split; [by apply ensure_files_idle|].
  rewrite ensure_files_users_file. unfold document.
  split; [by intros d ->|]. split; [by intros ->|]. apply Hinit.
Qed.

Lemma ensure_files_idempotent_witness :
  users_file fresh_world = None
  ∧ users_file (snd (ensure_files fresh_world)) = Some {| users := ∅ |}
  ∧ users_file (snd (ensure_files alice_world)) = users_file alice_world.
Proof.
  destruct (ensure_files_idempotent fresh_world) as (_ & _ & _ & Hnone & _).
  destruct (ensure_files_idempotent alice_world) as (_ & _ & Hsome & _).
  split; [reflexivity|]. split; [apply Hnone; reflexivity|].
  destruct (users_file alice_world) as [d|] eqn:Hd.
  - apply Hsome. reflexivity.
  - vm_compute in Hd. discriminate Hd.
Defined.

(** ** Hexadecimal text *)

Lemma byte_of_ascii_of_byte (b : Z) : byte_of_ascii (ascii_of_byte b) = b mod 256.
Proof.
  unfold byte_of_ascii, ascii_of_byte.
  rewrite Ascii.N_ascii_embedding.
  - rewrite Z2N.id; [done|]. apply Z.mod_pos_bound. lia.
  - pose proof (Z.mod_pos_bound b 256). lia.
Qed.

Lemma hex_digit_lower_hex (x : Z) : is_lower_hex (hex_digit (Z.land x 15)) = true.
Proof.
  assert (0 ≤ Z.land x 15 < 16) as Hd.
  { change 15 with (Z.ones 4). rewrite Z.land_ones by lia. apply Z.mod_pos_bound. lia. }
  unfold hex_digit, is_lower_hex.
  destruct (Z.ltb_spec (Z.land x 15) 10);
    rewrite byte_of_ascii_of_byte, Z.mod_small by lia; lia.
Qed.

Lemma hex_digits_lower_hex (n : nat) (x : Z) (k : string) :
  string_forallb is_lower_hex k = true →
  string_forallb is_lower_hex (hex_digits n x k) = true.
Proof.
  revert x k. induction n as [|n IH]; intros x k Hk; [exact Hk|].
  simpl. apply IH. simpl. by rewrite hex_digit_lower_hex.
Qed.

Lemma hex_digits_length (n : nat) (x : Z) (k : string) :
  String.length (hex_digits n x k) = (n + String.length k)%nat.
Proof.
  revert x k. induction n as [|n IH]; intros x k; [done|].
  simpl. rewrite IH. simpl. lia.
Qed.

Lemma hex_of_bytes_lower_hex (bs : list Byte.byte) :
  string_forallb is_lower_hex (hex_of_bytes bs) = true.
Proof.
  induction bs as [|b bs IH]; [reflexivity|].
  change (hex_of_bytes (b :: bs))
    with (hex_digits 2 (Z.of_N (Byte.to_N b)) (hex_of_bytes bs)).
  by apply hex_digits_lower_hex.
Qed.

Transparent Hashlib.sha256_hexdigest.

(** [hash_password] returns 64 characters, each one of 0-9 and a-f,
    whatever the password and the salt are. *)
Theorem hash_password_hex64 (password salt : string) :
  String.length (hash_password password salt) = 64%nat
  ∧ string_forallb is_lower_hex (hash_password password salt) = true.
Proof.
  unfold hash_password, Hashlib.sha256_hexdigest.
  generalize (Hashlib.sha256 (bytes_of_string (salt +:+ password))). intros h.
  cbv zeta. cbn [fold_right]. split.
  - rewrite !hex_digits_length. reflexivity.
  - repeat apply hex_digits_lower_hex. reflexivity.
Qed.

Opaque Hashlib.sha256_hexdigest.

(** ** Accounts *)

Lemma create_user_made_dirs (w : World) (u p n : string) :
  database w !! u = None →
  made_dirs (snd (create_user u p n w))
  = match makedirs_error w (Py.path_join BASE_UPLOAD_DIR u) with
    | None => {[ Py.path_join BASE_UPLOAD_DIR u ]} ∪ ({[ BASE_UPLOAD_DIR ]} ∪ made_dirs w)
    | Some _ => {[ BASE_UPLOAD_DIR ]} ∪ made_dirs w
    end.
Proof.
  intros H. rewrite database_eq in H.
  assert (made_dirs (snd (ensure_files w)) = {[ BASE_UPLOAD_DIR ]} ∪ made_dirs w) as Hmd.
  { unfold ensure_files, bind. rewrite makedirs_upload_folder. simpl.
    by destruct (users_file w). }
  unfold create_user, bind. rewrite load_users_eq, H.
  unfold token_hex, token_bytes, datetime_now, save_users, write_users_file,
    makedirs, ret, bind. simpl.
  erewrite (makedirs_error_ext w) by (simpl; apply ensure_files_fs_error).
  destruct (makedirs_error w (Py.path_join BASE_UPLOAD_DIR u)); simpl; by rewrite Hmd.
Qed.

Lemma has_nul_app (s t : string) : has_nul (s +:+ t) = has_nul s || has_nul t.
Proof.
  induction s as [|c s IH]; [done|].
  change (String c s +:+ t) with (String c (s +:+ t)). simpl. rewrite IH.
  by rewrite orb_assoc.
Qed.

Lemma makedirs_error_nul (w : World) (u : string) :
  has_nul u = true → ∃ exn, makedirs_error w (Py.path_join BASE_UPLOAD_DIR u) = Some exn.
Proof.
  intros Hnul.
  assert (has_nul (Py.path_join BASE_UPLOAD_DIR u) = true) as Hpath.
  { unfold Py.path_join. destruct (Py.starts_with_slash u); [done|].
    change (bool_decide (BASE_UPLOAD_DIR = "") || Py.ends_with_slash BASE_UPLOAD_DIR)
      with false. cbv iota.
    rewrite !has_nul_app, Hnul. by rewrite !orb_true_r. }
  unfold makedirs_error. rewrite bool_decide_eq_false_2.
  - destruct (fs_error w _) as [exn|]; [eauto|]. rewrite Hpath. eauto.
  - intros Heq. by rewrite Heq in Hpath.
Qed.

(** [create_user] for a username that is not a key touches the record of
    no other user and no uploaded file, and reads the clock once:
    [created_at] is that reading in ISO format.  This holds whether it
    returns or [os.makedirs] raises. *)
Theorem create_user_frame (w : World) (username password full_name : string) :
  database w !! username = None →
  (∀ other, other ≠ username →
     database (snd (create_user username password full_name w)) !! other
     = database w !! other)
  ∧ files (snd (create_user username password full_name w)) = files w
  ∧ ticks (snd (create_user username password full_name w)) = S (ticks w)
  ∧ ∃ user,
      database (snd (create_user username password full_name w)) !! username = Some user
      ∧ created_at user = Py.isoformat (clock w (ticks w)).
Proof.
  intros Hnew.
  destruct (create_user_fresh w username password full_name Hnew)
    as (_ & Hdb & _ & Ht & Hf).
  rewrite Hdb. split.
  - intros other Hne. by rewrite lookup_insert_ne.
  - split; [exact Hf|]. split; [exact Ht|].
    eexists. split; [apply lookup_insert_eq|]. reflexivity.
Qed.

Lemma create_user_frame_witness :
  database alice_world !! "bob" = None
  ∧ database (snd (create_user "bob" "hunter2" "Bob" alice_world)) !! "alice"
    = database alice_world !! "alice"
  ∧ ∃ user,
      database (snd (create_user "bob" "hunter2" "Bob" alice_world)) !! "bob" = Some user
      ∧ created_at user = "2025-01-01T00:00:01".
Proof.
  assert (database alice_world !! "bob" = None) as Hnew by (vm_compute; reflexivity).
  destruct (create_user_frame alice_world "bob" "hunter2" "Bob" Hnew)
    as (Hother & _ & _ & user & Hu & Hc).
  split; [exact Hnew|]. split; [by apply Hother|].
  exists user. split; [exact Hu|]. rewrite Hc. vm_compute. reflexivity.
Defined.

(** The folder of a new user is [os.path.join("upload", username)]: the
    username itself when it starts with "/", a path outside the upload
    folder, and "upload/" followed by the username otherwise.  When
    [os.makedirs] can make it, [create_user] returns (True, "User
    created.") and the folder is there.  When [os.makedirs] raises, as it
    does for every username with a NUL character, [create_user] raises that
    exception after the record was saved: the account exists all the
    same. *)
Theorem create_user_upload_dir (w : World) (username password full_name : string) :
  database w !! username = None →
  (makedirs_error w (Py.path_join BASE_UPLOAD_DIR username) = None →
     fst (create_user username password full_name w) = Returned (true, "User created.")
     ∧ Py.path_join BASE_UPLOAD_DIR username
         ∈ made_dirs (snd (create_user username password full_name w)))
  ∧ (∀ exn, makedirs_error w (Py.path_join BASE_UPLOAD_DIR username) = Some exn →
       fst (create_user username password full_name w) = Raised exn
       ∧ database (snd (create_user username password full_name w)) !! username
         = Some (new_record w password full_name))
  ∧ (has_nul username = true →
       ∃ exn, fst (create_user username password full_name w) = Raised exn)
  ∧ (Py.starts_with_slash username = true →
       Py.path_join BASE_UPLOAD_DIR username = username)
  ∧ (Py.starts_with_slash username = false →
       Py.path_join BASE_UPLOAD_DIR username = "upload/" +:+ username).
Proof.
  intros Hnew.
  destruct (create_user_fresh w username password full_name Hnew) as (Hres & Hdb & _).
  rewrite Hres, Hdb, (create_user_made_dirs w username password full_name Hnew).
  split; [|split; [|split; [|split]]].
  - intros ->. split; [done|]. apply elem_of_union_l, elem_of_singleton. reflexivity.
  - intros exn ->. by rewrite lookup_insert_eq.
  - intros Hnul. destruct (makedirs_error_nul w username Hnul) as (exn & ->). eauto.
  - unfold Py.path_join. by intros ->.
  - unfold Py.path_join. by intros ->.
Qed.

Lemma create_user_upload_dir_witness :
  database fresh_world !! "/srv/www" = None
  ∧ makedirs_error fresh_world (Py.path_join BASE_UPLOAD_DIR "/srv/www") = None
  ∧ "/srv/www" ∈ made_dirs (snd (create_user "/srv/www" "pw" "" fresh_world))
  ∧ database alice_world !! "../users.json" = None
  ∧ makedirs_error alice_world (Py.path_join BASE_UPLOAD_DIR "../users.json")
    = Some "FileExistsError"
  ∧ fst (create_user "../users.json" "pw" "" alice_world) = Raised "FileExistsError"
  ∧ is_Some (database (snd (create_user "../users.json" "pw" "" alice_world))
               !! "../users.json").
Proof.
  assert (database fresh_world !! "/srv/www" = None) as H1 by (vm_compute; reflexivity).
  assert (makedirs_error fresh_world (Py.path_join BASE_UPLOAD_DIR "/srv/www") = None)
    as D1 by (vm_compute; reflexivity).
  assert (database alice_world !! "../users.json" = None) as H2 by (vm_compute; reflexivity).
  assert (makedirs_error alice_world (Py.path_join BASE_UPLOAD_DIR "../users.json")
          = Some "FileExistsError") as D2 by (vm_compute; reflexivity).
  destruct (create_user_upload_dir fresh_world "/srv/www" "pw" "" H1)
    as (Hmade & _ & _ & Habs & _).
  destruct (create_user_upload_dir alice_world "../users.json" "pw" "" H2)
    as (_ & Hraise & _).
  destruct (Hmade D1) as (_ & Hin). rewrite Habs in Hin by reflexivity.
  destruct (Hraise _ D2) as (Hexn & Hrec).
  split; [exact H1|]. split; [exact D1|]. split; [exact Hin|].
  split; [exact H2|]. split; [exact D2|]. split; [exact Hexn|].
  rewrite Hrec. eauto.
Defined.

(** [verify_user] only reads: it draws no random byte, takes no clock
    reading, writes no uploaded file, keeps an existing [users.json] and
    leaves an initialised world exactly as it was, whatever the outcome. *)
Theorem verify_user_read_only (w : World) (username password : string) :
  drawn (snd (verify_user username password w)) = drawn w
  ∧ ticks (snd (verify_user username password w)) = ticks w
  ∧ files (snd (verify_user username password w)) = files w
  ∧ (∀ d, users_file w = Some d →
       users_file (snd (verify_user username password w)) = Some d)
  ∧ (initialised w → snd (verify_user username password w) = w).
Proof.
  rewrite verify_user_world.
  destruct (ensure_files_frame w) as (Hf & Hd & Ht & _).
  split; [exact Hd|]. split; [exact Ht|]. split; [exact Hf|]. split.
  - intros d Hd'. rewrite ensure_files_users_file. unfold document. by rewrite Hd'.
  - apply ensure_files_idle.
Qed.

Lemma verify_user_read_only_witness :
  initialised alice_world
  ∧ snd (verify_user "alice" "wrong" alice_world) = alice_world
  ∧ snd (verify_user "alice" "p@ss1" alice_world) = alice_world.
Proof.
  assert (initialised alice_world) as Hinit.
  { split; [vm_compute; eauto|]. vm_compute. reflexivity. }
  destruct (verify_user_read_only alice_world "alice" "wrong") as (_ & _ & _ & _ & H1).
  destruct (verify_user_read_only alice_world "alice" "p@ss1") as (_ & _ & _ & _ & H2).
  exact (conj Hinit (conj (H1 Hinit) (H2 Hinit))).
Defined.

(** ** What holds after any sequence of calls *)

(** Once an account was created, its password is accepted after every
    sequence of later calls: no call changes or removes the credentials. *)
Theorem login_survives_calls
    (w : World) (username password full_name : string) (cs : list Call) :
  database w !! username = None →
  fst (verify_user username password
         (calls cs (snd (create_user username password full_name w))))
  = (true, "Login successful.").
Proof.
  intros Hnew.
  destruct (create_user_fresh w username password full_name Hnew) as (_ & Hdb & _).
  assert (database (snd (create_user username password full_name w)) !! username
          = Some (new_record w password full_name)) as Hrec
    by (by rewrite Hdb, lookup_insert_eq).
  destruct (calls_same_account cs _ username _ Hrec) as (r' & Hr' & _ & Hsalt & Hhash & _).
  rewrite verify_user_result, Hr', <- Hsalt, <- Hhash. simpl.
  by rewrite bool_decide_eq_true_2.
Qed.

Lemma login_survives_calls_witness :
  database fresh_world !! "alice" = None
  ∧ fst (verify_user "alice" "p@ss1"
           (calls [CreateUser "alice" "stolen" "Mallory";
                   Signup true "alice" "" "stolen" "stolen";
                   AddHistory "alice" (entry_at 1);
                   Upload None "alice" None]
              (snd (create_user "alice" "p@ss1" "Alice" fresh_world))))
    = (true, "Login successful.").
Proof.
  assert (database fresh_world !! "alice" = None) as Hnew by (vm_compute; reflexivity).
  split; [exact Hnew|].
  apply (login_survives_calls fresh_world "alice" "p@ss1" "Alice"). exact Hnew.
Defined.

(** No sequence of calls removes an account or changes its full name,
    salt, password hash or creation time. *)
Theorem accounts_never_removed (w : World) (cs : list Call) :
  dom (database w) ⊆ dom (database (calls cs w))
  ∧ ∀ u r, database w !! u = Some r →
      ∃ r', database (calls cs w) !! u = Some r'
            ∧ full_name r' = full_name r ∧ salt r' = salt r
            ∧ pwd_hash r' = pwd_hash r ∧ created_at r' = created_at r.
Proof.
  split.
  - intros u [r Hr]%elem_of_dom.
    destruct (calls_same_account cs w u r Hr) as (r' & Hr' & _).
    apply elem_of_dom. eauto.
  - intros u r Hr.
    destruct (calls_same_account cs w u r Hr) as (r' & Hr' & H1 & H2 & H3 & H4).
    exists r'. by repeat split.
Qed.

Lemma accounts_never_removed_witness :
  database alice_world !! "alice" = Some (new_record fresh_world "p@ss1" "Alice")
  ∧ ∃ r', database (calls [CreateUser "alice" "stolen" "Mallory";
                           AddHistory "alice" (entry_at 1)] alice_world) !! "alice"
          = Some r'
          ∧ full_name r' = "Alice" ∧ salt r' = "0001020304050607".
Proof.
  assert (database alice_world !! "alice" = Some (new_record fresh_world "p@ss1" "Alice"))
    as Hold by (vm_compute; reflexivity).
  destruct (accounts_never_removed alice_world
              [CreateUser "alice" "stolen" "Mallory"; AddHistory "alice" (entry_at 1)])
    as (_ & Hkeep).
  destruct (Hkeep _ _ Hold) as (r' & Hr' & Hn & Hs & _).
  split; [exact Hold|]. exists r'. split; [exact Hr'|].
  split; [rewrite Hn|rewrite Hs]; vm_compute; reflexivity.
Defined.

Lemma show_signup_world (w : World) (s : bool) (u n p c : string) :
  snd (show_signup s u n p c w) = w
  ∨ snd (show_signup s u n p c w) = snd (create_user (Py.strip u) p (Py.strip n) w).
Proof.
  unfold show_signup. destruct s; [|by left].
  destruct (bool_decide (u = "") || bool_decide (p = "")); [by left|].
  destruct (Py.has_space u); [by left|].
  destruct (negb (bool_decide (p = c))); [by left|].
  right. unfold bind.
  destruct (create_user (Py.strip u) p (Py.strip n) w) as [[[ok msg]|exn] w']; simpl;
    [by destruct ok|done].
Qed.

Lemma create_user_capped (w : World) (u p n : string) :
  histories_capped w → histories_capped (snd (create_user u p n w)).
Proof.
  intros Hcap v r. destruct (database w !! u) as [user|] eqn:Hu.
  - rewrite (create_user_taken w u p n user Hu). simpl.
    rewrite ensure_files_database. apply Hcap.
  - destruct (create_user_fresh w u p n Hu) as (_ & -> & _).
    rewrite lookup_insert. destruct (decide (u = v)) as [->|Hne].
    + intros [= <-]. simpl. lia.
    + apply Hcap.
Qed.

Lemma add_history_db_capped (db : gmap string UserRecord) (u : string) (e : HistoryEntry) :
  (∀ v r, db !! v = Some r → (length (history r) ≤ 50)%nat) →
  ∀ v r, add_history_db u e db !! v = Some r → (length (history r) ≤ 50)%nat.
Proof.
  intros Hcap v r. rewrite add_history_db_lookup.
  destruct (decide (u = v)) as [->|Hne]; [|apply Hcap].
  destruct (db !! v) as [user|]; [|done].
  intros [= <-]. simpl. rewrite length_take. lia.
Qed.

Lemma call_capped (c : Call) (w : World) :
  histories_capped w → histories_capped (call c w).
Proof.
  intros Hcap. destruct c as [u p n|u p|u e|s u n p c|m u f]; simpl.
  - by apply create_user_capped.
  - unfold histories_capped. rewrite verify_user_world, ensure_files_database. exact Hcap.
  - unfold histories_capped. rewrite add_history_database.
    by apply add_history_db_capped.
  - destruct (show_signup_world w s u n p c) as [->| ->]; [exact Hcap|].
    by apply create_user_capped.
  - unfold histories_capped.
    destruct (user_upload_ui_database m w u f) as [->|[item ->]]; [exact Hcap|].
    by apply add_history_db_capped.
Qed.

(** The cap of 50 entries is an invariant: when every stored history has
    at most 50 entries, so has every stored history after any sequence of
    calls.  It holds from the empty database on. *)
Theorem history_cap_invariant (w : World) (cs : list Call) :
  histories_capped w → histories_capped (calls cs w).
Proof.
  revert w. induction cs as [|c cs IH]; intros w Hcap; [exact Hcap|].
  change (calls (c :: cs) w) with (calls cs (call c w)).
  apply IH. by apply call_capped.
Qed.

Lemma history_cap_invariant_witness :
  histories_capped fresh_world
  ∧ histories_capped
      (calls (CreateUser "alice" "p@ss1" "Alice"
              :: map (fun t => AddHistory "alice" (entry_at t)) (seq 1 60)) fresh_world).
Proof.
  assert (histories_capped fresh_world) as Hcap.
  { intros u r Hr. vm_compute in Hr. discriminate Hr. }
  split; [exact Hcap|]. apply (history_cap_invariant fresh_world). exact Hcap.
Defined.

Lemma take_app_take {A : Type} (n : nat) (l k : list A) :
  take n (l ++ take n k) = take n (l ++ k).
Proof.
  rewrite !take_app, take_take. f_equal. f_equal. lia.
Qed.

Lemma add_history_for_user_cons
    (w : World) (u : string) (user : UserRecord) (e : HistoryEntry) (items : list HistoryEntry) :
  database w !! u = Some user →
  ∃ user',
    database (calls (map (AddHistory u) (e :: items)) w) !! u = Some user'
    ∧ history user' = take 50 (reverse (e :: items) ++ history user)
    ∧ same_account user user'.
Proof.
  revert w user e. induction items as [|e2 items IH]; intros w user e Hu.
  - simpl. rewrite add_history_database, add_history_db_lookup, decide_True, Hu by done.
    eexists. split; [reflexivity|]. done.
  - change (calls (map (AddHistory u) (e :: e2 :: items)) w)
      with (calls (map (AddHistory u) (e2 :: items)) (call (AddHistory u e) w)).
    assert (database (call (AddHistory u e) w) !! u
            = Some (with_history (take 50 (e :: history user)) user)) as H1.
    { simpl. by rewrite add_history_database, add_history_db_lookup, decide_True, Hu. }
    destruct (IH _ _ e2 H1) as (user' & Hu' & Hh & Hs).
    exists user'. split; [exact Hu'|]. split; [|exact Hs].
    rewrite Hh. cbn [history with_history]. rewrite take_app_take.
    rewrite (reverse_cons (e2 :: items) e), <- app_assoc. reflexivity.
Qed.

(** Entries added one after the other for a user end up newest first in
    front of the old history, cut to 50: after the items [e1 ... en], the
    history is the first 50 of [en ... e1] followed by the old entries. *)
Theorem add_history_for_user_many
    (w : World) (username : string) (user : UserRecord) (items : list HistoryEntry) :
  database w !! username = Some user →
  items ≠ [] →
  ∃ user',
    database (calls (map (AddHistory username) items) w) !! username = Some user'
    ∧ history user' = take 50 (reverse items ++ history user)
    ∧ same_account user user'.
Proof.
  intros Hu Hne. destruct items as [|e items]; [done|].
  by apply add_history_for_user_cons.
Qed.

Lemma add_history_for_user_many_witness :
  database alice_world !! "alice" = Some (new_record fresh_world "p@ss1" "Alice")
  ∧ map entry_at (seq 1 52) ≠ []
  ∧ ∃ user',
      database (calls (map (AddHistory "alice") (map entry_at (seq 1 52))) alice_world)
        !! "alice" = Some user'
      ∧ history user' = map entry_at (reverse (seq 3 50)).
Proof.
  assert (database alice_world !! "alice" = Some (new_record fresh_world "p@ss1" "Alice"))
    as Hold by (vm_compute; reflexivity).
  assert (map entry_at (seq 1 52) ≠ []) as Hne by discriminate.
  destruct (add_history_for_user_many alice_world "alice" _ _ Hold Hne)
    as (user' & Hu' & Hh & _).
  split; [exact Hold|]. split; [exact Hne|].
  exists user'. split; [exact Hu'|]. rewrite Hh. vm_compute. reflexivity.
Defined.

(** ** The classifier *)

(** A label [classify_images] returns is the sentinel "ModelNotLoaded",
    with confidence 0.0 and only when no model is loaded, or one of the four
    names of [ECG_NAMES], and then the image file exists. *)
Theorem classify_images_label
    (model : option KerasModel) (image_path : string) (w : World)
    (l : string) (c : spec_float) :
  classify_images model image_path w = Returned (l, c) →
  (model = None ∧ l = "ModelNotLoaded" ∧ c = PyFloat.zero)
  ∨ (is_Some model ∧ l ∈ ECG_NAMES ∧ is_Some (files w !! image_path)).
Proof.
  unfold classify_images. destruct model as [m|].
  - destruct (files w !! image_path) as [image|]; [|done].
    destruct (predict_top m image) as [[top conf]|]; [|done].
    destruct (ECG_NAMES !! top) as [name|] eqn:Hname; [|done].
    intros [= <- <-]. right. split; [eauto|]. split; [|eauto].
    by eapply list_elem_of_lookup_2.
  - intros [= <- <-]. by left.
Qed.

Lemma classify_images_label_witness :
  let m := {| predict_top := fun _ => Some (3%nat, PyFloat.zero) |} in
  let w := snd (write_file "upload/alice/a.png" [Byte.x89] alice_world) in
  classify_images (Some m) "upload/alice/a.png" w = Returned ("Normal ECG", PyFloat.zero)
  ∧ "Normal ECG" ∈ ECG_NAMES.
Proof.
  intros m w.
  assert (classify_images (Some m) "upload/alice/a.png" w
          = Returned ("Normal ECG", PyFloat.zero)) as Hret by (vm_compute; reflexivity).
  split; [exact Hret|].
  destruct (classify_images_label _ _ _ _ _ Hret) as [(Hnone & _)|(_ & Hin & _)].
  - discriminate Hnone.
  - exact Hin.
Defined.

(** With a model loaded and the image file in place, the class index the
    model gives selects the label: an index below 4 returns that name of
    [ECG_NAMES] with the model's confidence, an index of 4 or more raises
    [IndexError]. *)
Theorem classify_images_index_bound
    (m : KerasModel) (image_path : string) (w : World)
    (image : list Byte.byte) (top : nat) (c : spec_float) :
  files w !! image_path = Some image →
  predict_top m image = Some (top, c) →
  ((top < 4)%nat →
     ∃ name, ECG_NAMES !! top = Some name
             ∧ classify_images (Some m) image_path w = Returned (name, c))
  ∧ ((4 ≤ top)%nat → classify_images (Some m) image_path w = Raised "IndexError").
Proof.
  intros Himg Hpred. unfold classify_images. rewrite Himg, Hpred. split.
  - intros Htop. destruct (lookup_lt_is_Some_2 ECG_NAMES top) as [name Hname];
      [simpl; lia|].
    exists name. by rewrite Hname.
  - intros Htop. rewrite (lookup_ge_None_2 ECG_NAMES top); [done|]. simpl. lia.
Qed.

Lemma classify_images_index_bound_witness :
  let w := snd (write_file "upload/alice/a.png" [Byte.x89] alice_world) in
  classify_images (Some {| predict_top := fun _ => Some (4%nat, PyFloat.zero) |})
    "upload/alice/a.png" w = Raised "IndexError"
  ∧ ∃ name,
      ECG_NAMES !! 1%nat = Some name
      ∧ classify_images (Some {| predict_top := fun _ => Some (1%nat, PyFloat.zero) |})
          "upload/alice/a.png" w = Returned (name, PyFloat.zero).
Proof.
  intros w.
  destruct (classify_images_index_bound
              {| predict_top := fun _ => Some (4%nat, PyFloat.zero) |}
              "upload/alice/a.png" w [Byte.x89] 4%nat PyFloat.zero) as (_ & H4);
    [vm_compute; reflexivity|reflexivity|].
  destruct (classify_images_index_bound
              {| predict_top := fun _ => Some (1%nat, PyFloat.zero) |}
              "upload/alice/a.png" w [Byte.x89] 1%nat PyFloat.zero) as (H1 & _);
    [vm_compute; reflexivity|reflexivity|].
  split; [apply H4; lia|apply H1; lia].
Defined.

(** ** Uploads *)

Lemma add_history_env (w : World) (u : string) (e : HistoryEntry) :
  clock (snd (add_history_for_user u e w)) = clock w
  ∧ made_dirs (snd (add_history_for_user u e w)) = {[ BASE_UPLOAD_DIR ]} ∪ made_dirs w
  ∧ fs_error (snd (add_history_for_user u e w)) = fs_error w.
Proof.
  unfold add_history_for_user, bind. rewrite load_users_eq.
  assert (clock (snd (ensure_files w)) = clock w
          ∧ made_dirs (snd (ensure_files w)) = {[ BASE_UPLOAD_DIR ]} ∪ made_dirs w
          ∧ fs_error (snd (ensure_files w)) = fs_error w) as H.
  { unfold ensure_files, bind. rewrite makedirs_upload_folder. simpl.
    by destruct (users_file w). }
  by destruct (users (document w) !! u).
Qed.

Lemma user_upload_ui_written
    (model : option KerasModel) (w : World) (username : string) (f : UploadedFile.t) :
  can_store w username f →
  files (snd (user_upload_ui model username (Some f) w))
    !! upload_path w username (UploadedFile.name f)
  = Some (UploadedFile.getbuffer f)
  ∧ (∀ p, p ≠ upload_path w username (UploadedFile.name f) →
       files (snd (user_upload_ui model username (Some f) w)) !! p = files w !! p)
  ∧ Py.path_join BASE_UPLOAD_DIR username
      ∈ made_dirs (snd (user_upload_ui model username (Some f) w))
  ∧ (∀ item, fst (user_upload_ui model username (Some f) w) = Returned (Some item) →
       filename item = upload_name w (UploadedFile.name f)
       ∧ filepath item = upload_path w username (UploadedFile.name f)
       ∧ timestamp item = Py.isoformat (clock w (S (ticks w)))).
Proof.
  intros [Hmk Hopen]. rewrite user_upload_ui_cases, Hmk, Hopen.
  assert (Py.path_join BASE_UPLOAD_DIR username ∈ made_dirs (upload_written w username f))
    as Hdir by (apply elem_of_union_l, elem_of_singleton; reflexivity).
  destruct (classify_images model _ (upload_written w username f)) as [[l c]|exn];
    cbn [fst snd].
  - destruct (add_history_frame (snd (datetime_now (upload_written w username f)))
                username (upload_item w username (UploadedFile.name f) l c)) as (-> & _).
    destruct (add_history_env (snd (datetime_now (upload_written w username f)))
                username (upload_item w username (UploadedFile.name f) l c)) as (_ & -> & _).
    cbn [files made_dirs datetime_now snd upload_written].
    split; [apply lookup_insert_eq|].
    split; [intros p Hp; by rewrite lookup_insert_ne|].
    split; [by apply elem_of_union_r|].
    intros item [= <-]. done.
  - cbn [files upload_written]. split; [apply lookup_insert_eq|].
    split; [intros p Hp; by rewrite lookup_insert_ne|].
    split; [exact Hdir|]. intros item [=].
Qed.

(** An upload whose folder cannot be made, or whose file cannot be
    opened, raises the exception of [os.makedirs] or of [open]: no file is
    written and the database is what it was. *)
Lemma user_upload_ui_not_stored
    (model : option KerasModel) (w : World) (username : string) (f : UploadedFile.t) :
  (∀ exn, makedirs_error w (Py.path_join BASE_UPLOAD_DIR username) = Some exn →
     user_upload_ui model username (Some f) w = (Raised exn, w))
  ∧ (∀ exn, makedirs_error w (Py.path_join BASE_UPLOAD_DIR username) = None →
       open_error w (upload_path w username (UploadedFile.name f)) = Some exn →
       fst (user_upload_ui model username (Some f) w) = Raised exn
       ∧ files (snd (user_upload_ui model username (Some f) w)) = files w
       ∧ database (snd (user_upload_ui model username (Some f) w)) = database w).
Proof.
  rewrite user_upload_ui_cases. split.
  - by intros exn ->.
  - intros exn -> ->. split; [done|]. split; [done|]. by apply database_users_file.
Qed.

(** When [os.makedirs] can make the folder of the user and [open] can
    open the file, then whatever the classifier does, raise included, the
    uploaded bytes are in the file [upload/<username>/ECG_<time><ext>]
    afterwards, no other file has changed, and a returned entry carries
    that file's name and path.  When [os.makedirs] or [open] raises, the
    upload raises the same exception, and no file is written and no entry
    recorded. *)
Theorem user_upload_ui_stores_file
    (model : option KerasModel) (w : World) (username : string) (f : UploadedFile.t) :
  (can_store w username f →
     files (snd (user_upload_ui model username (Some f) w))
       !! upload_path w username (UploadedFile.name f)
     = Some (UploadedFile.getbuffer f)
     ∧ (∀ p, p ≠ upload_path w username (UploadedFile.name f) →
          files (snd (user_upload_ui model username (Some f) w)) !! p = files w !! p)
     ∧ Py.path_join BASE_UPLOAD_DIR username
         ∈ made_dirs (snd (user_upload_ui model username (Some f) w))
     ∧ (∀ item, fst (user_upload_ui model username (Some f) w) = Returned (Some item) →
          filename item = upload_name w (UploadedFile.name f)
          ∧ filepath item = upload_path w username (UploadedFile.name f)
          ∧ timestamp item = Py.isoformat (clock w (S (ticks w)))))
  ∧ (∀ exn, makedirs_error w (Py.path_join BASE_UPLOAD_DIR username) = Some exn →
       user_upload_ui model username (Some f) w = (Raised exn, w))
  ∧ (∀ exn, makedirs_error w (Py.path_join BASE_UPLOAD_DIR username) = None →
       open_error w (upload_path w username (UploadedFile.name f)) = Some exn →
       fst (user_upload_ui model username (Some f) w) = Raised exn
       ∧ files (snd (user_upload_ui model username (Some f) w)) = files w
       ∧ database (snd (user_upload_ui model username (Some f) w)) = database w).
Proof.
  split; [apply user_upload_ui_written|apply user_upload_ui_not_stored].
Qed.

Lemma user_upload_ui_stores_file_witness :
  let f := {| UploadedFile.name := "scan.JPG"; UploadedFile.getbuffer := [Byte.x89; Byte.x50] |} in
  let g := {| UploadedFile.name := "scan.p" +:+ nul +:+ "ng";
              UploadedFile.getbuffer := [Byte.x89; Byte.x50] |} in
  (can_store alice_world "alice" f
   ∧ files (snd (user_upload_ui None "alice" (Some f) alice_world))
       !! "upload/alice/ECG_20250101_000001.JPG" = Some [Byte.x89; Byte.x50]
   ∧ ∃ item,
       fst (user_upload_ui None "alice" (Some f) alice_world) = Returned (Some item)
       ∧ filepath item = "upload/alice/ECG_20250101_000001.JPG")
  ∧ (makedirs_error alice_world (Py.path_join BASE_UPLOAD_DIR "../users.json")
     = Some "FileExistsError"
     ∧ user_upload_ui None "../users.json" (Some f) alice_world
       = (Raised "FileExistsError", alice_world))
  ∧ (open_error alice_world (upload_path alice_world "alice" (UploadedFile.name g))
     = Some "ValueError"
     ∧ fst (user_upload_ui None "alice" (Some g) alice_world) = Raised "ValueError"
     ∧ files (snd (user_upload_ui None "alice" (Some g) alice_world)) = files alice_world).
Proof.
  intros f g.
  assert (makedirs_error alice_world (Py.path_join BASE_UPLOAD_DIR "alice") = None)
    as Hmk by (vm_compute; reflexivity).
  assert (can_store alice_world "alice" f) as Hcan
    by (split; vm_compute; reflexivity).
  assert (makedirs_error alice_world (Py.path_join BASE_UPLOAD_DIR "../users.json")
          = Some "FileExistsError") as Hexn by (vm_compute; reflexivity).
  assert (open_error alice_world (upload_path alice_world "alice" (UploadedFile.name g))
          = Some "ValueError") as Hnul by (vm_compute; reflexivity).
  destruct (user_upload_ui_stores_file None alice_world "alice" f) as (Hok & _ & _).
  destruct (user_upload_ui_stores_file None alice_world "../users.json" f)
    as (_ & Hraise & _).
  destruct (user_upload_ui_stores_file None alice_world "alice" g) as (_ & _ & Hopen).
  destruct (Hok Hcan) as (Hfile & _ & _ & Hitem).
  destruct (Hopen _ Hmk Hnul) as (Hg & Hgfiles & _).
  split; [|exact (conj (conj Hexn (Hraise _ Hexn)) (conj Hnul (conj Hg Hgfiles)))].
  split; [exact Hcan|]. split; [exact Hfile|].
  assert (fst (user_upload_ui None "alice" (Some f) alice_world)
          = Returned (Some (upload_item alice_world "alice" "scan.JPG"
                              "ModelNotLoaded" PyFloat.zero))) as Hret
    by (vm_compute; reflexivity).
  eexists. split; [exact Hret|].
  destruct (Hitem _ Hret) as (_ & -> & _). vm_compute. reflexivity.
Defined.

(** What an upload that is stored does to the clock and to the answers
    of the disk: the clock is read once when the classifier raises and
    twice when it returns. *)
Lemma user_upload_ui_env
    (model : option KerasModel) (w : World) (u : string) (f : UploadedFile.t) :
  can_store w u f →
  clock (snd (user_upload_ui model u (Some f) w)) = clock w
  ∧ fs_error (snd (user_upload_ui model u (Some f) w)) = fs_error w
  ∧ (ticks (snd (user_upload_ui model u (Some f) w)) = S (ticks w)
     ∨ ticks (snd (user_upload_ui model u (Some f) w)) = S (S (ticks w))).
Proof.
  intros [Hmk Hopen]. rewrite user_upload_ui_cases, Hmk, Hopen.
  destruct (classify_images model _ (upload_written w u f)) as [[l c]|exn]; cbn [snd].
  - destruct (add_history_frame (snd (datetime_now (upload_written w u f))) u
                (upload_item w u (UploadedFile.name f) l c)) as (_ & _ & ->).
    destruct (add_history_env (snd (datetime_now (upload_written w u f))) u
                (upload_item w u (UploadedFile.name f) l c)) as (-> & _ & ->).
    simpl. auto.
  - simpl. auto.
Qed.

(** The stored file is named after the second of the upload.  When two
    uploads of one user with the same extension fall into the same second,
    whatever the classifier is at either upload and whether it returns or
    raises, the second upload gets the path of the first and overwrites its
    file: the bytes of the first upload are gone. *)
Theorem user_upload_ui_same_second_overwrites
    (model1 model2 : option KerasModel) (w : World) (username : string)
    (f1 f2 : UploadedFile.t) :
  can_store w username f1 →
  Py.strftime_compact (clock w (ticks w + 1)%nat) = Py.strftime_compact (clock w (ticks w)) →
  Py.strftime_compact (clock w (ticks w + 2)%nat) = Py.strftime_compact (clock w (ticks w)) →
  upload_ext (UploadedFile.name f2) = upload_ext (UploadedFile.name f1) →
  upload_path (snd (user_upload_ui model1 username (Some f1) w)) username
    (UploadedFile.name f2)
  = upload_path w username (UploadedFile.name f1)
  ∧ files (snd (user_upload_ui model1 username (Some f1) w))
      !! upload_path w username (UploadedFile.name f1)
    = Some (UploadedFile.getbuffer f1)
  ∧ files (snd (user_upload_ui model2 username (Some f2)
                  (snd (user_upload_ui model1 username (Some f1) w))))
      !! upload_path w username (UploadedFile.name f1)
    = Some (UploadedFile.getbuffer f2).
Proof.
  intros Hcan Hsec1 Hsec2 Hext.
  destruct (user_upload_ui_env model1 w username f1 Hcan) as (Hclock & Hfs & Hticks).
  assert (upload_path (snd (user_upload_ui model1 username (Some f1) w)) username
            (UploadedFile.name f2)
          = upload_path w username (UploadedFile.name f1)) as Hpath.
  { unfold upload_path, upload_name. rewrite Hclock, Hext.
    destruct Hticks as [-> | ->].
    - replace (S (ticks w)) with (ticks w + 1)%nat by lia. by rewrite Hsec1.
    - replace (S (S (ticks w))) with (ticks w + 2)%nat by lia. by rewrite Hsec2. }
  assert (can_store (snd (user_upload_ui model1 username (Some f1) w)) username f2)
    as Hcan'.
  { destruct Hcan as [Hmk Hopen]. split.
    - by rewrite (makedirs_error_ext w _ _ Hfs).
    - by rewrite Hpath, (open_error_ext w _ _ Hfs). }
  split; [exact Hpath|]. split.
  - by apply user_upload_ui_written.
  - rewrite <- Hpath. by apply user_upload_ui_written.
Qed.

Lemma user_upload_ui_same_second_overwrites_witness :
  let f1 := {| UploadedFile.name := "first.png"; UploadedFile.getbuffer := [Byte.x01] |} in
  let f2 := {| UploadedFile.name := "second.png"; UploadedFile.getbuffer := [Byte.x02] |} in
  let loaded := Some {| predict_top := fun _ => Some (3%nat, PyFloat.zero) |} in
  let failing := Some {| predict_top := fun _ => None |} in
  can_store busy_world "alice" f1
  ∧ Py.strftime_compact (clock busy_world 1) = Py.strftime_compact (clock busy_world 0)
  ∧ Py.strftime_compact (clock busy_world 2) = Py.strftime_compact (clock busy_world 0)
  ∧ files (snd (user_upload_ui None "alice" (Some f2)
                  (snd (user_upload_ui loaded "alice" (Some f1) busy_world))))
      !! "upload/alice/ECG_20250630_120000.png"
    = Some [Byte.x02]
  ∧ files (snd (user_upload_ui loaded "alice" (Some f2)
                  (snd (user_upload_ui failing "alice" (Some f1) busy_world))))
      !! "upload/alice/ECG_20250630_120000.png"
    = Some [Byte.x02].
Proof.
  intros f1 f2 loaded failing.
  assert (can_store busy_world "alice" f1) as Hcan by (split; vm_compute; reflexivity).
  assert (Py.strftime_compact (clock busy_world (ticks busy_world + 1)%nat)
          = Py.strftime_compact (clock busy_world (ticks busy_world))) as Hsec1
    by (vm_compute; reflexivity).
  assert (Py.strftime_compact (clock busy_world (ticks busy_world + 2)%nat)
          = Py.strftime_compact (clock busy_world (ticks busy_world))) as Hsec2
    by (vm_compute; reflexivity).
  assert (upload_ext (UploadedFile.name f2) = upload_ext (UploadedFile.name f1)) as Hext
    by (vm_compute; reflexivity).
  destruct (user_upload_ui_same_second_overwrites loaded None busy_world "alice" f1 f2
              Hcan Hsec1 Hsec2 Hext) as (_ & _ & H1).
  destruct (user_upload_ui_same_second_overwrites failing loaded busy_world "alice" f1 f2
              Hcan Hsec1 Hsec2 Hext) as (_ & _ & H2).
  exact (conj Hcan (conj Hsec1 (conj Hsec2 (conj H1 H2)))).
Defined.

(** An upload for a username that has no account records nothing: the
    database is what it was, whatever the classifier answers and whether
    or not the file can be stored.  When it can be stored, it is stored all
    the same. *)
Theorem user_upload_ui_unknown_user
    (model : option KerasModel) (w : World) (username : string) (f : UploadedFile.t) :
  database w !! username = None →
  database (snd (user_upload_ui model username (Some f) w)) = database w
  ∧ (can_store w username f →
       files (snd (user_upload_ui model username (Some f) w))
         !! upload_path w username (UploadedFile.name f)
       = Some (UploadedFile.getbuffer f)).
Proof.
  intros Hnew. split; [|intros Hcan; by apply user_upload_ui_written].
  destruct (user_upload_ui_database model w username (Some f)) as [->|[item ->]]; [done|].
  unfold add_history_db. by rewrite Hnew.
Qed.

Lemma user_upload_ui_unknown_user_witness :
  let f := {| UploadedFile.name := "scan.png"; UploadedFile.getbuffer := [Byte.x01] |} in
  database alice_world !! "bob" = None
  ∧ can_store alice_world "bob" f
  ∧ database (snd (user_upload_ui None "bob" (Some f) alice_world)) = database alice_world
  ∧ files (snd (user_upload_ui None "bob" (Some f) alice_world))
      !! "upload/bob/ECG_20250101_000001.png" = Some [Byte.x01].
Proof.
  intros f.
  assert (database alice_world !! "bob" = None) as Hnew by (vm_compute; reflexivity).
  assert (can_store alice_world "bob" f) as Hcan by (split; vm_compute; reflexivity).
  destruct (user_upload_ui_unknown_user None alice_world "bob" f Hnew) as (Hdb & Hfile).
  exact (conj Hnew (conj Hcan (conj Hdb (Hfile Hcan)))).
Defined.

(** ** The name of the stored file *)

Lemma string_app_cons (a : ascii) (s t : string) : String a s +:+ t = String a (s +:+ t).
Proof. reflexivity. Qed.

Lemma string_app_nil_r (s : string) : s +:+ "" = s.
Proof. induction s as [|a s IH]; [done|]. by rewrite string_app_cons, IH. Qed.

Lemma string_app_assoc (s t v : string) : (s +:+ t) +:+ v = s +:+ (t +:+ v).
Proof. induction s as [|a s IH]; [done|]. by rewrite !string_app_cons, IH. Qed.

Lemma string_forallb_app (p : ascii → bool) (s t : string) :
  string_forallb p (s +:+ t) = string_forallb p s && string_forallb p t.
Proof.
  induction s as [|a s IH]; [done|].
  rewrite string_app_cons. simpl. rewrite IH. by rewrite andb_assoc.
Qed.

Lemma dec_digits_not_slash (n : nat) (x : Z) (k : string) :
  string_forallb not_slash k = true →
  string_forallb not_slash (Py.dec_digits n x k) = true.
Proof.
  revert x k. induction n as [|n IH]; intros x k Hk; [exact Hk|].
  simpl. apply IH. simpl. rewrite Hk, andb_true_r.
  unfold not_slash. rewrite byte_of_ascii_of_byte.
  pose proof (Z.mod_pos_bound x 10). rewrite Z.mod_small by lia.
  apply negb_true_iff, Z.eqb_neq. lia.
Qed.

Lemma strftime_compact_not_slash (dt : Py.datetime) :
  string_forallb not_slash (Py.strftime_compact dt) = true.
Proof.
  unfold Py.strftime_compact.
  do 3 apply dec_digits_not_slash.
  rewrite string_forallb_app. apply andb_true_intro. split; [reflexivity|].
  do 3 apply dec_digits_not_slash. reflexivity.
Qed.

Lemma splitext_go_not_slash (p : string) (lead : bool) (ext : option string) :
  (∀ e, ext = Some e → ∃ pre, e = pre +:+ p ∧ string_forallb not_slash pre = true) →
  string_forallb not_slash (Py.splitext_go p lead ext) = true.
Proof.
  revert lead ext. induction p as [|c r IH]; intros lead ext Hext.
  - simpl. destruct ext as [e|]; [|reflexivity].
    destruct (Hext e eq_refl) as (pre & -> & Hpre). by rewrite string_app_nil_r.
  - simpl. destruct (byte_of_ascii c =? 47) eqn:Hslash.
    + apply IH. intros e [=].
    + assert (not_slash c = true) as Hc by (unfold not_slash; by rewrite Hslash).
      destruct (byte_of_ascii c =? 46).
      * apply IH. destruct lead; intros e [= <-].
        exists (String c ""). split; [reflexivity|]. simpl. by rewrite Hc.
      * apply IH. intros e ->. destruct (Hext e eq_refl) as (pre & -> & Hpre).
        exists (pre +:+ String c ""). split.
        -- by rewrite string_app_assoc.
        -- rewrite string_forallb_app, Hpre. simpl. by rewrite Hc.
Qed.

Lemma upload_ext_not_slash (name : string) :
  string_forallb not_slash (upload_ext name) = true.
Proof.
  unfold upload_ext. destruct (bool_decide _); [reflexivity|].
  unfold Py.splitext_ext. apply splitext_go_not_slash. intros e [=].
Qed.

Lemma upload_name_not_slash (w : World) (name : string) :
  string_forallb not_slash (upload_name w name) = true.
Proof.
  unfold upload_name. rewrite !string_forallb_app.
  by rewrite strftime_compact_not_slash, upload_ext_not_slash.
Qed.

Lemma upload_path_in_folder (w : World) (username name : string) :
  Py.ends_with_slash (Py.path_join BASE_UPLOAD_DIR username) = false →
  upload_path w username name
  = Py.path_join BASE_UPLOAD_DIR username +:+ "/" +:+ upload_name w name.
Proof.
  intros Hend. unfold upload_path, Py.path_join at 1.
  change (Py.starts_with_slash (upload_name w name)) with false.
  rewrite Hend, orb_false_r.
  destruct (Py.path_join BASE_UPLOAD_DIR username) eqn:Hp; [|done].
  exfalso. revert Hp. unfold Py.path_join.
  destruct (Py.starts_with_slash username) eqn:Hs.
  - intros ->. discriminate Hs.
  - discriminate.
Qed.

(** Whatever name the uploaded file had, path separators included, the
    file name of a recorded entry starts with "ECG_" and has no "/" in it;
    when the folder of the user does not end with "/", the recorded path is
    that folder, "/" and the file name, and the uploaded bytes are there. *)
Theorem user_upload_ui_filename_safe
    (model : option KerasModel) (w : World) (username : string) (f : UploadedFile.t)
    (item : HistoryEntry) :
  fst (user_upload_ui model username (Some f) w) = Returned (Some item) →
  string_forallb not_slash (filename item) = true
  ∧ (∃ rest, filename item = "ECG_" +:+ rest)
  ∧ (Py.ends_with_slash (Py.path_join BASE_UPLOAD_DIR username) = false →
       filepath item = Py.path_join BASE_UPLOAD_DIR username +:+ "/" +:+ filename item)
  ∧ files (snd (user_upload_ui model username (Some f) w)) !! filepath item
    = Some (UploadedFile.getbuffer f).
Proof.
  intros Hret.
  assert (can_store w username f) as Hcan.
  { rewrite user_upload_ui_cases in Hret. unfold can_store.
    destruct (makedirs_error w (Py.path_join BASE_UPLOAD_DIR username)) as [exn|];
      [discriminate|].
    by destruct (open_error w (upload_path w username (UploadedFile.name f))) as [exn|]. }
  destruct (user_upload_ui_written model w username f Hcan) as (Hfile & _ & _ & Hitem).
  destruct (Hitem item Hret) as (-> & -> & _).
  split; [apply upload_name_not_slash|]. split; [unfold upload_name; eauto|].
  split; [apply upload_path_in_folder|exact Hfile].
Qed.

Lemma user_upload_ui_filename_safe_witness :
  let f := {| UploadedFile.name := "../../etc/cron.d/job.sh";
              UploadedFile.getbuffer := [Byte.x23; Byte.x21] |} in
  let item := upload_item alice_world "alice" "../../etc/cron.d/job.sh"
                "ModelNotLoaded" PyFloat.zero in
  fst (user_upload_ui None "alice" (Some f) alice_world) = Returned (Some item)
  ∧ filename item = "ECG_20250101_000001.sh"
  ∧ filepath item = "upload/alice/ECG_20250101_000001.sh"
  ∧ files (snd (user_upload_ui None "alice" (Some f) alice_world)) !! filepath item
    = Some [Byte.x23; Byte.x21].
Proof.
  intros f item.
  assert (fst (user_upload_ui None "alice" (Some f) alice_world) = Returned (Some item))
    as Hret by (vm_compute; reflexivity).
  destruct (user_upload_ui_filename_safe None alice_world "alice" f item Hret)
    as (_ & _ & _ & Hfile).
  split; [exact Hret|]. split; [vm_compute; reflexivity|].
  split; [vm_compute; reflexivity|exact Hfile].
Defined.

(** ** Signing up and logging in *)

Lemma show_signup_accepted_eq (w : World) (u n p : string) :
  u ≠ "" → p ≠ "" → Py.has_space u = false →
  show_signup true u n p p w =
    (match fst (create_user (Py.strip u) p (Py.strip n) w) with
     | Raised exn => Raised exn
     | Returned (ok, msg) =>
         Returned (Some (if ok then st_success "Account created. Please log in below."
                         else st_error msg))
     end,
     snd (create_user (Py.strip u) p (Py.strip n) w)).
Proof.
  intros Hu Hp Hs. unfold show_signup, bind, ret.
  rewrite !bool_decide_eq_false_2 by done. rewrite Hs.
  rewrite bool_decide_eq_true_2 by done. simpl.
  destruct (create_user (Py.strip u) p (Py.strip n) w) as [[[ok msg]|exn] w']; simpl;
    [by destruct ok|done].
Qed.

Lemma strip_front_ascii_whitespace (fwd : bool) (s : string) :
  string_forallb ascii_whitespace s = true → Py.strip_front fwd s = "".
Proof.
  induction s as [|c s IH]; [done|]. simpl.
  intros [Hc Hs]%andb_prop. unfold ascii_whitespace in Hc. rewrite Hc. by apply IH.
Qed.

(** The sign-up form strips the username and the full name before it
    creates the account.  An accepted form with a new stripped username
    stores the record under the stripped username; it shows "Account
    created. Please log in below." when [os.makedirs] can make the folder of
    that username, and raises what [os.makedirs] raises when it cannot, the
    record being stored either way.  The stripped username is empty when
    the username was made of ASCII whitespace.  When the stripped username
    is taken, the form shows "Username already exists." and the database is
    unchanged. *)
Theorem show_signup_accepted
    (w : World) (new_username full_name new_password : string) :
  new_username ≠ "" → new_password ≠ "" → Py.has_space new_username = false →
  (database w !! Py.strip new_username = None →
     fst (show_signup true new_username full_name new_password new_password w)
     = match makedirs_error w (Py.path_join BASE_UPLOAD_DIR (Py.strip new_username)) with
       | Some exn => Raised exn
       | None => Returned (Some (st_success "Account created. Please log in below."))
       end
     ∧ database (snd (show_signup true new_username full_name new_password new_password w))
       = <[ Py.strip new_username := new_record w new_password (Py.strip full_name) ]>
           (database w))
  ∧ (∀ user, database w !! Py.strip new_username = Some user →
     fst (show_signup true new_username full_name new_password new_password w)
     = Returned (Some (st_error "Username already exists."))
     ∧ database (snd (show_signup true new_username full_name new_password new_password w))
       = database w)
  ∧ (string_forallb ascii_whitespace new_username = true → Py.strip new_username = "").
Proof.
  intros Hu Hp Hs. rewrite show_signup_accepted_eq by done. cbn [fst snd].
  split; [|split].
  - intros Hnew.
    destruct (create_user_fresh w (Py.strip new_username) new_password
                (Py.strip full_name) Hnew) as (-> & -> & _).
    split; [|reflexivity].
    by destruct (makedirs_error w (Py.path_join BASE_UPLOAD_DIR (Py.strip new_username))).
  - intros user Hold.
    rewrite (create_user_taken w (Py.strip new_username) new_password
               (Py.strip full_name) user Hold). cbn [fst snd].
    by rewrite ensure_files_database.
  - intros Hws. unfold Py.strip, Py.lstrip, Py.rstrip.
    by rewrite (strip_front_ascii_whitespace true new_username Hws).
Qed.

Lemma show_signup_accepted_witness :
  tab ≠ "" ∧ Py.has_space tab = false ∧ Py.strip tab = ""
  ∧ fst (show_signup true tab " Eve " "pw" "pw" fresh_world)
    = Returned (Some (st_success "Account created. Please log in below."))
  ∧ database (snd (show_signup true tab " Eve " "pw" "pw" fresh_world)) !! ""
    = Some (new_record fresh_world "pw" "Eve")
  ∧ fst (show_signup true ("al" +:+ nul +:+ "ice") "" "pw" "pw" fresh_world)
    = Raised "ValueError"
  ∧ fst (show_signup true "alice" "" "pw" "pw" alice_world)
    = Returned (Some (st_error "Username already exists.")).
Proof.
  assert (tab ≠ "") as Ht by discriminate.
  assert ("al" +:+ nul +:+ "ice" ≠ "") as Hn by discriminate.
  assert ("alice" ≠ "") as Ha by discriminate.
  assert ("pw" ≠ "") as Hp by discriminate.
  destruct (show_signup_accepted fresh_world tab " Eve " "pw" Ht Hp eq_refl)
    as (Hnew & _ & Hstrip).
  destruct (show_signup_accepted fresh_world ("al" +:+ nul +:+ "ice") "" "pw" Hn Hp eq_refl)
    as (Hraise & _).
  destruct (show_signup_accepted alice_world "alice" "" "pw" Ha Hp eq_refl) as (_ & Hold & _).
  split; [exact Ht|]. split; [reflexivity|]. split; [exact (Hstrip eq_refl)|].
  destruct Hnew as (Hfst & Hdb); [vm_compute; reflexivity|].
  destruct Hraise as (Hexn & _); [vm_compute; reflexivity|].
  split; [rewrite Hfst; vm_compute; reflexivity|].
  split; [rewrite Hdb; vm_compute; reflexivity|].
  split; [rewrite Hexn; vm_compute; reflexivity|].
  apply (Hold (new_record fresh_world "p@ss1" "Alice")). vm_compute. reflexivity.
Defined.

Lemma show_login_eq (w : World) (u p : string) (remember : bool) (ss : SessionState.t) :
  show_login true u p remember ss w =
    (if fst (fst (verify_user (Py.strip u) p w))
     then (Some (st_success ("Logged in as " +:+ u)),
           {| SessionState.authenticated := true;
              SessionState.username := Some (Py.strip u);
              SessionState.remember := Some remember |}, true)
     else (Some (st_error (snd (fst (verify_user (Py.strip u) p w)))), ss, false),
     snd (verify_user (Py.strip u) p w)).
Proof.
  unfold show_login, bind, ret.
  destruct (verify_user (Py.strip u) p w) as [[ok msg] w']. simpl. by destruct ok.
Qed.

(** A submitted login form authenticates the session exactly when the
    stripped username has an account whose stored hash is that of the
    password: the session then names the stripped username and the run is
    restarted; otherwise the session state is what it was.  The database
    is unchanged either way. *)
Theorem show_login_session
    (w : World) (username password : string) (remember : bool)
    (session_state : SessionState.t) :
  ∃ notice session_state' rerun,
    fst (show_login true username password remember session_state w)
    = (notice, session_state', rerun)
    ∧ (rerun = true ↔
         ∃ user, database w !! Py.strip username = Some user
                 ∧ hash_password password (salt user) = pwd_hash user)
    ∧ (rerun = true →
         session_state' = {| SessionState.authenticated := true;
                             SessionState.username := Some (Py.strip username);
                             SessionState.remember := Some remember |}
         ∧ notice = Some (st_success ("Logged in as " +:+ username)))
    ∧ (rerun = false →
         session_state' = session_state ∧ ∃ msg, notice = Some (st_error msg))
    ∧ database (snd (show_login true username password remember session_state w))
      = database w.
Proof.
  rewrite show_login_eq. cbn [fst snd].
  rewrite verify_user_world, ensure_files_database, verify_user_result.
  destruct (database w !! Py.strip username) as [user|] eqn:Hu.
  - destruct (decide (hash_password password (salt user) = pwd_hash user)) as [Hh|Hh].
    + rewrite bool_decide_eq_true_2 by done. cbn [fst snd].
      do 3 eexists. split; [reflexivity|]. split; [|done].
      split; [eauto|done].
    + rewrite bool_decide_eq_false_2 by done. cbn [fst snd].
      do 3 eexists. split; [reflexivity|]. split; [|split; [done|eauto]].
      split; [done|]. intros (user' & [= <-] & Hh'). done.
  - cbn [fst snd]. do 3 eexists. split; [reflexivity|]. split; [|split; [done|eauto]].
    split; [done|]. intros (user' & [=] & _).
Qed.

Lemma show_login_session_witness :
  (∃ user, database alice_world !! Py.strip " alice " = Some user
           ∧ hash_password "p@ss1" (salt user) = pwd_hash user)
  ∧ fst (show_login true " alice " "p@ss1" true initial_session alice_world)
    = (Some (st_success "Logged in as  alice "),
       {| SessionState.authenticated := true;
          SessionState.username := Some "alice";
          SessionState.remember := Some true |}, true).
Proof.
  assert (∃ user, database alice_world !! Py.strip " alice " = Some user
                  ∧ hash_password "p@ss1" (salt user) = pwd_hash user) as Hacc.
  { exists (new_record fresh_world "p@ss1" "Alice"). split; vm_compute; reflexivity. }
  split; [exact Hacc|].
  destruct (show_login_session alice_world " alice " "p@ss1" true initial_session)
    as (notice & ss & rerun & Hres & Hiff & Hok & _).
  apply Hiff in Hacc. destruct (Hok Hacc) as (Hss & Hnotice).
  rewrite Hres, Hss, Hnotice, Hacc. reflexivity.
Defined.

(** An account made through the sign-up form can be logged into with the
    same username and password as typed: both forms strip the username the
    same way, so the session is authenticated as the stripped username. *)
Theorem signup_then_login
    (w : World) (new_username full_name new_password : string) (remember : bool)
    (session_state : SessionState.t) :
  new_username ≠ "" → new_password ≠ "" → Py.has_space new_username = false →
  database w !! Py.strip new_username = None →
  fst (show_login true new_username new_password remember session_state
         (snd (show_signup true new_username full_name new_password new_password w)))
  = (Some (st_success ("Logged in as " +:+ new_username)),
     {| SessionState.authenticated := true;
        SessionState.username := Some (Py.strip new_username);
        SessionState.remember := Some remember |}, true).
Proof.
  intros Hu Hp Hs Hnew.
  rewrite show_signup_accepted_eq by done. cbn [snd].
  destruct (create_user_fresh w (Py.strip new_username) new_password
              (Py.strip full_name) Hnew) as (_ & Hdb & _).
  rewrite show_login_eq. cbn [fst].
  rewrite verify_user_result, Hdb, lookup_insert_eq. simpl.
  by rewrite bool_decide_eq_true_2.
Qed.

Lemma signup_then_login_witness :
  Py.has_space ("bob" +:+ tab) = false
  ∧ database alice_world !! Py.strip ("bob" +:+ tab) = None
  ∧ fst (show_login true ("bob" +:+ tab) "hunter2" false initial_session
           (snd (show_signup true ("bob" +:+ tab) "Bob" "hunter2" "hunter2" alice_world)))
    = (Some (st_success ("Logged in as " +:+ ("bob" +:+ tab))),
       {| SessionState.authenticated := true;
          SessionState.username := Some "bob";
          SessionState.remember := Some false |}, true).
Proof.
  assert (database alice_world !! Py.strip ("bob" +:+ tab) = None) as Hnew
    by (vm_compute; reflexivity).
  split; [reflexivity|]. split; [exact Hnew|].
  apply (signup_then_login alice_world ("bob" +:+ tab) "Bob" "hunter2" false initial_session);
    [discriminate|discriminate|reflexivity|exact Hnew].
Defined.

(** ** One salt per account *)

Lemma hex_of_bytes_cons (b : Byte.byte) (r : list Byte.byte) :
  hex_of_bytes (b :: r)
  = String (hex_digit (Z.land (Z.shiftr (Z.of_N (Byte.to_N b)) 4) 15))
      (String (hex_digit (Z.land (Z.of_N (Byte.to_N b)) 15)) (hex_of_bytes r)).
Proof. reflexivity. Qed.

Lemma unhex_byte_hex (b : Byte.byte) :
  unhex_byte (hex_digit (Z.land (Z.shiftr (Z.of_N (Byte.to_N b)) 4) 15))
             (hex_digit (Z.land (Z.of_N (Byte.to_N b)) 15)) = Some b.
Proof. destruct b; vm_compute; reflexivity. Qed.

Lemma hex_of_bytes_inj (bs bs' : list Byte.byte) :
  hex_of_bytes bs = hex_of_bytes bs' → bs = bs'.
Proof.
  revert bs'. induction bs as [|b bs IH]; intros [|b' bs'].
  - done.
  - rewrite hex_of_bytes_cons. discriminate.
  - rewrite hex_of_bytes_cons. discriminate.
  - rewrite !hex_of_bytes_cons. intros [= H1 H0 Hr].
    pose proof (unhex_byte_hex b) as Hb. rewrite H1, H0, unhex_byte_hex in Hb.
    f_equal; [congruence|by apply IH].
Qed.

Lemma create_user_entropy (w : World) (u p n : string) :
  entropy (snd (create_user u p n w)) = entropy w.
Proof.
  destruct (ensure_files_frame w) as (_ & _ & _ & He & _).
  destruct (database w !! u) as [user|] eqn:Hu.
  - by rewrite (create_user_taken w u p n user Hu).
  - rewrite database_eq in Hu. unfold create_user, bind. rewrite load_users_eq, Hu.
    unfold token_hex, token_bytes, datetime_now, save_users, write_users_file,
      makedirs, ret, bind. simpl.
    match goal with |- context [makedirs_error ?w0 ?path] =>
      destruct (makedirs_error w0 path) as [exn|] end; exact He.
Qed.

(** Two accounts created one after the other get their salts from two
    draws that do not overlap: the first from the next 8 bytes of the
    random source, the second from the 8 bytes after them.  The two salts
    are equal only when the source gave the same 8 bytes twice. *)
Theorem create_user_two_salts (w : World) (u1 p1 n1 u2 p2 n2 : string) :
  database w !! u1 = None → database w !! u2 = None → u1 ≠ u2 →
  ∃ r1 r2,
    database (snd (create_user u2 p2 n2 (snd (create_user u1 p1 n1 w)))) !! u1 = Some r1
    ∧ database (snd (create_user u2 p2 n2 (snd (create_user u1 p1 n1 w)))) !! u2 = Some r2
    ∧ salt r1 = hex_of_bytes (map (fun i => entropy w (drawn w + i)%nat) (seq 0 8))
    ∧ salt r2 = hex_of_bytes (map (fun i => entropy w (drawn w + 8 + i)%nat) (seq 0 8))
    ∧ (salt r1 = salt r2 ↔
         ∀ i, (i < 8)%nat → entropy w (drawn w + i)%nat = entropy w (drawn w + 8 + i)%nat).
Proof.
  intros H1 H2 Hne.
  destruct (create_user_fresh w u1 p1 n1 H1) as (_ & Hdb1 & Hdr1 & _).
  assert (database (snd (create_user u1 p1 n1 w)) !! u2 = None) as H2'
    by (by rewrite Hdb1, lookup_insert_ne).
  destruct (create_user_fresh _ u2 p2 n2 H2') as (_ & Hdb2 & _).
  exists (new_record w p1 n1), (new_record (snd (create_user u1 p1 n1 w)) p2 n2).
  rewrite Hdb2, Hdb1.
  split; [by rewrite lookup_insert_ne, lookup_insert_eq|].
  split; [by rewrite lookup_insert_eq|].
  cbn [salt new_record]. unfold next_token.
  rewrite create_user_entropy, Hdr1.
  split; [reflexivity|]. split; [reflexivity|]. split.
  - intros Heq%hex_of_bytes_inj i Hi.
    apply (proj1 map_ext_in_iff Heq). apply in_seq. lia.
  - intros Hall. f_equal. apply map_ext_in. intros i Hi%in_seq. apply Hall. lia.
Qed.

Lemma create_user_two_salts_witness :
  database fresh_world !! "alice" = None ∧ database fresh_world !! "bob" = None
  ∧ ∃ r1 r2,
      database (snd (create_user "bob" "p@ss1" "Bob"
                       (snd (create_user "alice" "p@ss1" "Alice" fresh_world)))) !! "alice"
        = Some r1
      ∧ database (snd (create_user "bob" "p@ss1" "Bob"
                         (snd (create_user "alice" "p@ss1" "Alice" fresh_world)))) !! "bob"
          = Some r2
      ∧ salt r1 = "0001020304050607" ∧ salt r2 = "08090a0b0c0d0e0f".
Proof.
  assert (database fresh_world !! "alice" = None) as H1 by (vm_compute; reflexivity).
  assert (database fresh_world !! "bob" = None) as H2 by (vm_compute; reflexivity).
  destruct (create_user_two_salts fresh_world "alice" "p@ss1" "Alice" "bob" "p@ss1" "Bob"
              H1 H2) as (r1 & r2 & Hr1 & Hr2 & Hs1 & Hs2 & _); [discriminate|].
  split; [exact H1|]. split; [exact H2|].
  exists r1, r2. split; [exact Hr1|]. split; [exact Hr2|].
  split; [rewrite Hs1|rewrite Hs2]; vm_compute; reflexivity.
Defined.

(** ** What an upload and the other calls leave alone *)

(** An upload changes the record of no other user; in the record of the
    uploader nothing but the history changes, and the history is either
    what it was or the new entry before the old ones, cut to 50. *)
Theorem user_upload_ui_frame
    (model : option KerasModel) (w : World) (username : string)
    (uploaded_file : option UploadedFile.t) :
  (∀ other, other ≠ username →
     database (snd (user_upload_ui model username uploaded_file w)) !! other
     = database w !! other)
  ∧ ∀ user, database w !! username = Some user →
      ∃ user',
        database (snd (user_upload_ui model username uploaded_file w)) !! username
          = Some user'
        ∧ same_account user user'
        ∧ (history user' = history user
           ∨ ∃ item, history user' = take 50 (item :: history user)).
Proof.
  destruct (user_upload_ui_database model w username uploaded_file) as [->|[item ->]].
  - split; [done|]. intros user Hu. exists user. split; [done|]. split; [done|by left].
  - split.
    + intros other Hne. by rewrite add_history_db_lookup, decide_False.
    + intros user Hu. rewrite add_history_db_lookup, decide_True, Hu by done.
      eexists. split; [reflexivity|]. split; [done|]. right. by exists item.
Qed.

Lemma user_upload_ui_frame_witness :
  let f := {| UploadedFile.name := "scan.png"; UploadedFile.getbuffer := [Byte.x01] |} in
  let w := snd (create_user "bob" "hunter2" "Bob" alice_world) in
  database (snd (user_upload_ui None "alice" (Some f) w)) !! "bob" = database w !! "bob"
  ∧ ∃ user user',
      database w !! "alice" = Some user
      ∧ database (snd (user_upload_ui None "alice" (Some f) w)) !! "alice" = Some user'
      ∧ same_account user user'.
Proof.
  intros f w.
  destruct (user_upload_ui_frame None w "alice" (Some f)) as (Hother & Hself).
  split; [apply Hother; discriminate|].
  assert (database w !! "alice" = Some (new_record fresh_world "p@ss1" "Alice")) as Hu
    by (vm_compute; reflexivity).
  destruct (Hself _ Hu) as (user' & Hu' & Hs & _).
  exists (new_record fresh_world "p@ss1" "Alice"), user'.
  exact (conj Hu (conj Hu' Hs)).
Defined.

(** Accounts come from [create_user] alone: [verify_user],
    [add_history_for_user] and the upload handler leave the set of
    usernames as it is, [create_user] adds the given username at most, and
    the sign-up form the stripped one. *)
Theorem accounts_added_by_create_user_only (c : Call) (w : World) :
  match c with
  | CreateUser u _ _ =>
      dom (database (call c w)) = dom (database w)
      ∨ dom (database (call c w)) = {[ u ]} ∪ dom (database w)
  | Signup _ u _ _ _ =>
      dom (database (call c w)) = dom (database w)
      ∨ dom (database (call c w)) = {[ Py.strip u ]} ∪ dom (database w)
  | VerifyUser _ _ | AddHistory _ _ | Upload _ _ _ =>
      dom (database (call c w)) = dom (database w)
  end.
Proof.
  assert (∀ u p n w, dom (database (snd (create_user u p n w))) = dom (database w)
                     ∨ dom (database (snd (create_user u p n w)))
                       = {[ u ]} ∪ dom (database w)) as Hcreate.
  { intros u p n w0. destruct (database w0 !! u) as [user|] eqn:Hu.
    - left. rewrite (create_user_taken w0 u p n user Hu). simpl.
      by rewrite ensure_files_database.
    - right. destruct (create_user_fresh w0 u p n Hu) as (_ & -> & _).
      apply dom_insert_L. }
  assert (∀ u e db, dom (add_history_db u e db) = dom db) as Hadd.
  { intros u e db. unfold add_history_db. destruct (db !! u) as [user|] eqn:Hu; [|done].
    rewrite dom_insert_L. apply subseteq_union_1_L, singleton_subseteq_l.
    apply elem_of_dom. eauto. }
  destruct c as [u p n|u p|u e|s u n p c|m u f]; simpl.
  - apply Hcreate.
  - by rewrite verify_user_world, ensure_files_database.
  - by rewrite add_history_database.
  - destruct (show_signup_world w s u n p c) as [->| ->]; [by left|apply Hcreate].
  - destruct (user_upload_ui_database m w u f) as [->|[item ->]]; [done|apply Hadd].
Qed.
